(** * Gas-sponsorship quota ledger: [check_user_gas_quota] and [record_gas_usage]

    A shallow embedding of the two PL/pgSQL procedures of
    [supabase/migrations/003_gas_sponsorship.sql] and of the tables they
    read and write.  SQL values keep their NULL, conditions are
    three-valued, BIGINT and INT arithmetic raises on overflow, and a
    procedure is a state transformer over the database that either
    returns or raises (in which case the caller's transaction keeps the
    database it started from). *)

From Stdlib Require Import ZArith Lia.
From stdpp Require Import base option list strings gmap fin_maps.

Local Open Scope Z_scope.

(** ** SQL values and three-valued logic *)

Module Sql.

(** A nullable column or PL/pgSQL variable of type [A] is an [option A];
    [None] is NULL. *)

Definition not3 (a : option bool) : option bool := negb <$> a.

Definition or3 (a b : option bool) : option bool :=
  match a, b with
  | Some true, _ => Some true
  | _, Some true => Some true
  | Some false, Some false => Some false
  | _, _ => None
  end.

(** [a > b] on nullable integers. *)
Definition gt3 (a b : option Z) : option bool :=
  match a, b with
  | Some x, Some y => Some (y <? x)
  | _, _ => None
  end.

(** [a = b] on nullable booleans. *)
Definition eqb3 (a b : option bool) : option bool :=
  match a, b with
  | Some x, Some y => Some (Bool.eqb x y)
  | _, _ => None
  end.

(** [a IS NULL]: never NULL itself. *)
Definition is_null {A} (a : option A) : option bool :=
  Some (match a with None => true | Some _ => false end).

(** What [IF c THEN] and [WHERE c] do with a condition: only TRUE passes,
    FALSE and NULL do not. *)
Definition holds (c : option bool) : bool :=
  match c with Some true => true | _ => false end.

(** [COALESCE(a1, ..., an)]: the first argument that is not NULL. *)
Fixpoint coalesce {A} (l : list (option A)) : option A :=
  match l with
  | [] => None
  | Some x :: _ => Some x
  | None :: l' => coalesce l'
  end.

End Sql.

(** ** Tables *)

(** Timestamps are seconds since the epoch, dates are day numbers, UUIDs
    and addresses are text. *)

Module gas_station_config.
Record row := {
  id : string;
  fee_payer_address : string;
  fee_payer_balance : option Z;
  min_balance_alert : option Z;
  default_daily_limit_per_user : option Z;
  max_gas_per_transaction : option Z;
  max_transactions_per_user_per_day : option Z;
  whitelist_enabled : option bool;
  market_whitelist_enabled : option bool;
  rate_limit_per_ip : option Z;
  rate_limit_window_seconds : option Z;
  enabled : option bool;
  emergency_stop : option bool;
  created_at : option Z;
  updated_at : option Z
}.
End gas_station_config.

(** [gas_station_whitelist], keyed by its primary key [user_address]. *)
Module gas_station_whitelist.
Record row := {
  reason : option string;
  custom_daily_limit : option Z;
  is_active : option bool;
  added_by : option string;
  added_at : option Z;
  expires_at : option Z
}.
End gas_station_whitelist.

(** [gas_station_blocked_users], keyed by its primary key [user_address]. *)
Module gas_station_blocked_users.
Record row := {
  reason : string;
  blocked_until : option Z;
  blocked_by : option string;
  blocked_at : option Z
}.
End gas_station_blocked_users.

(** [user_daily_quotas], keyed by its primary key [(user_address, date)]. *)
Module user_daily_quotas.
Record row := {
  gas_used_today : option Z;
  remaining_quota : option Z;
  transactions_today : option Z;
  daily_limit : option Z;
  max_transactions_per_day : option Z;
  first_transaction_at : option Z;
  last_transaction_at : option Z;
  updated_at : option Z
}.
End user_daily_quotas.

(** [gas_sponsorship_usage]: append-only, [tx_hash] UNIQUE.  The surrogate
    key [id] is a random v4 UUID that nothing reads; it is left out. *)
Module gas_sponsorship_usage.
Record row := {
  market_id : option string;
  user_address : string;
  tx_hash : string;
  tx_version : Z;
  gas_used : Z;
  gas_unit_price : Z;
  total_gas_fee : Z;
  fee_payer_address : string;
  sponsored_at : option Z;
  block_height : option Z
}.
End gas_sponsorship_usage.

(** The database: the five tables of migration 003 and the primary keys of
    [markets] (migration 001), which [gas_sponsorship_usage.market_id]
    references. *)
Record db := {
  config : list gas_station_config.row;
  whitelist : gmap string gas_station_whitelist.row;
  blocked_users : gmap string gas_station_blocked_users.row;
  quotas : gmap (string * Z) user_daily_quotas.row;
  usage : list gas_sponsorship_usage.row;
  markets : gset string
}.

(** What a call sees of its transaction: [now()] and [CURRENT_DATE]. *)
Record session := { now : Z; CURRENT_DATE : Z }.

(** ** Procedures: state and errors *)

(** The SQLSTATE conditions the two procedures can raise. *)
Inductive sqlstate :=
| numeric_value_out_of_range
| unique_violation
| foreign_key_violation.

Inductive outcome (A : Type) :=
| Returned (a : A) (st' : db)
| Raised (e : sqlstate).
Arguments Returned {A} a st'.
Arguments Raised {A} e.

Definition plpgsql (A : Type) : Type := db → outcome A.

#[global] Instance plpgsql_ret : MRet plpgsql := λ A a st, Returned a st.

#[global] Instance plpgsql_bind : MBind plpgsql := λ A B f m st,
  match m st with
  | Returned a st' => f a st'
  | Raised e => Raised e
  end.

(** A SELECT: reads the database, leaves it as it is. *)
Definition query {A} (q : db → A) : plpgsql A := λ st, Returned (q st) st.

(** An INSERT or UPDATE that went through. *)
Definition dml (w : db → db) : plpgsql unit := λ st, Returned tt (w st).

Definition raise {A} (e : sqlstate) : plpgsql A := λ _, Raised e.

(** The value a call returns, and the database it leaves: an error aborts
    the statement and rolls its writes back. *)
Definition result {A} (o : outcome A) : sqlstate + A :=
  match o with Returned a _ => inr a | Raised e => inl e end.

Definition db_after {A} (m : plpgsql A) (st : db) : db :=
  match m st with Returned _ st' => st' | Raised _ => st end.

(** ** Integer arithmetic *)

Definition bigint_min : Z := - 2 ^ 63.
Definition bigint_max : Z := 2 ^ 63 - 1.
Definition int_min : Z := - 2 ^ 31.
Definition int_max : Z := 2 ^ 31 - 1.

Definition in_bigint (z : Z) : bool := (bigint_min <=? z) && (z <=? bigint_max).
Definition in_int (z : Z) : bool := (int_min <=? z) && (z <=? int_max).

Definition to_bigint (z : Z) : plpgsql Z :=
  if in_bigint z then mret z else raise numeric_value_out_of_range.

Definition to_int (z : Z) : plpgsql Z :=
  if in_int z then mret z else raise numeric_value_out_of_range.

(** NULL-propagating binary operator whose result must fit. *)
Definition arith (fit : Z → plpgsql Z) (op : Z → Z → Z) (a b : option Z)
  : plpgsql (option Z) :=
  match a, b with
  | Some x, Some y => z ← fit (op x y); mret (Some z)
  | _, _ => mret None
  end.

(** BIGINT [+] and [-], INT [+], under PostgreSQL's names. *)
Definition int8pl := arith to_bigint Z.add.
Definition int8mi := arith to_bigint Z.sub.
Definition int4pl := arith to_int Z.add.

(** ** [check_user_gas_quota] *)

(** The row of the function's result table.  [has_quota] and [reason] are
    literals on every path; the three amounts can be NULL. *)
Module quota_check.
Record row := {
  has_quota : bool;
  gas_used_today : option Z;
  remaining_quota : option Z;
  daily_limit : option Z;
  reason : string
}.
End quota_check.

(** A column of [v_config]: NULL when the SELECT found no row. *)
Definition field {R A} (v : option R) (col : R → option A) : option A := v ≫= col.

(** [SELECT * INTO v_config FROM gas_station_config LIMIT 1]: the first row
    of the scan, or a record of NULLs. *)
Definition select_config_limit_1 : plpgsql (option gas_station_config.row) :=
  query (λ st, head (config st)).

(** [NOT v_config.enabled OR v_config.emergency_stop], as an IF takes it. *)
Definition station_disabled (v_config : option gas_station_config.row) : bool :=
  Sql.holds (Sql.or3 (Sql.not3 (field v_config gas_station_config.enabled))
                     (field v_config gas_station_config.emergency_stop)).

(** [EXISTS(SELECT 1 FROM gas_station_blocked_users
      WHERE user_address = p_user_address
        AND (blocked_until IS NULL OR blocked_until > now()))]. *)
Definition user_blocked (s : session) (p_user_address : string) (st : db) : bool :=
  match blocked_users st !! p_user_address with
  | Some b =>
      let blocked_until := gas_station_blocked_users.blocked_until b in
      Sql.holds (Sql.or3 (Sql.is_null blocked_until)
                         (Sql.gt3 blocked_until (Some (now s))))
  | None => false
  end.

(** The rows of [gas_station_whitelist WHERE user_address = p_user_address
    AND is_active = true]; the primary key allows at most one. *)
Definition active_whitelist_rows (p_user_address : string) (st : db)
  : list gas_station_whitelist.row :=
  match whitelist st !! p_user_address with
  | Some w =>
      if Sql.holds (Sql.eqb3 (gas_station_whitelist.is_active w) (Some true))
      then [w] else []
  | None => []
  end.

(** [SELECT EXISTS(...), custom_daily_limit INTO v_is_whitelisted,
    v_custom_limit FROM gas_station_whitelist WHERE ...].  The select list is
    evaluated once per row of the outer FROM; without a row, SELECT INTO
    sets both targets to NULL. *)
Definition select_whitelist_into (p_user_address : string)
  : plpgsql (option bool * option Z) :=
  query (λ st,
    let rows := active_whitelist_rows p_user_address st in
    match rows with
    | w :: _ =>
        (Some (bool_decide (rows ≠ [])), gas_station_whitelist.custom_daily_limit w)
    | [] => (None, None)
    end).

(** [SELECT * INTO v_quota FROM user_daily_quotas
    WHERE user_address = p_user_address AND date = CURRENT_DATE];
    FOUND is whether the result is [Some]. *)
Definition select_quota_today (s : session) (p_user_address : string)
  : plpgsql (option user_daily_quotas.row) :=
  query (λ st, quotas st !! (p_user_address, CURRENT_DATE s)).

(** [RETURN QUERY SELECT false, 0, 0, 0, msg; RETURN;] *)
Definition refusal (msg : string) : quota_check.row :=
  {| quota_check.has_quota := false;
     quota_check.gas_used_today := Some 0;
     quota_check.remaining_quota := Some 0;
     quota_check.daily_limit := Some 0;
     quota_check.reason := msg |}.

(** [RETURN QUERY SELECT ok, v_quota.gas_used_today,
      v_quota.daily_limit - v_quota.gas_used_today, v_quota.daily_limit, msg] *)
Definition report (ok : bool) (gas_used_today daily_limit : option Z) (msg : string)
  : plpgsql quota_check.row :=
  remaining ← int8mi daily_limit gas_used_today;
  mret {| quota_check.has_quota := ok;
          quota_check.gas_used_today := gas_used_today;
          quota_check.remaining_quota := remaining;
          quota_check.daily_limit := daily_limit;
          quota_check.reason := msg |}.

(** Lines 275-303: the daily check, the per-transaction check, approval. *)
Definition quota_decision (v_config : option gas_station_config.row)
    (p_estimated_gas : Z) (gas_used_today daily_limit : option Z)
  : plpgsql quota_check.row :=
  needed ← int8pl gas_used_today (Some p_estimated_gas);
  if Sql.holds (Sql.gt3 needed daily_limit)
  then report false gas_used_today daily_limit "Daily quota exceeded" else
  if Sql.holds (Sql.gt3 (Some p_estimated_gas)
                        (field v_config gas_station_config.max_gas_per_transaction))
  then report false gas_used_today daily_limit "Gas per transaction limit exceeded" else
  report true gas_used_today daily_limit "OK".

(** The function at arguments that are values; the function as declared,
    which also runs with a NULL for either argument, is
    [check_user_gas_quota_nullable] further down and agrees with this one on
    values.  An early [RETURN] is the [then] branch of a conditional whose
    [else] branch is the rest of the body. *)
Definition check_user_gas_quota (s : session)
    (p_user_address : string) (p_estimated_gas : Z) : plpgsql quota_check.row :=
  v_config ← select_config_limit_1;
  if station_disabled v_config then mret (refusal "Gas station disabled") else
  v_is_blocked ← query (user_blocked s p_user_address);
  if (v_is_blocked : bool) then mret (refusal "User blocked") else
  (* what follows the whitelist block, reached with [v_custom_limit] set
     by it or still NULL *)
  let quota_checks (v_custom_limit : option Z) : plpgsql quota_check.row :=
    v_quota ← select_quota_today s p_user_address;
    let default := field v_config gas_station_config.default_daily_limit_per_user in
    let '(gas_used_today, daily_limit) :=
      match v_quota with
      | None => (Some 0, Sql.coalesce [v_custom_limit; default])
      | Some q =>
          (user_daily_quotas.gas_used_today q,
           Sql.coalesce [user_daily_quotas.daily_limit q; v_custom_limit; default])
      end in
    quota_decision v_config p_estimated_gas gas_used_today daily_limit in
  if Sql.holds (field v_config gas_station_config.whitelist_enabled) then
    '(v_is_whitelisted, v_custom_limit) ← select_whitelist_into p_user_address;
    if Sql.holds (Sql.not3 v_is_whitelisted)
    then mret (refusal "User not whitelisted")
    else quota_checks v_custom_limit
  else quota_checks None.

(** ** [record_gas_usage] *)

(** [INSERT INTO gas_sponsorship_usage (...) VALUES (...)]: the unique index
    on [tx_hash] refuses a hash that is already there, and the foreign key
    wants [market_id], when it is not NULL, among [markets.id]. *)
Definition insert_gas_sponsorship_usage (r : gas_sponsorship_usage.row) : plpgsql unit :=
  taken ← query (λ st,
    bool_decide (gas_sponsorship_usage.tx_hash r
                   ∈ gas_sponsorship_usage.tx_hash <$> usage st));
  if (taken : bool) then raise unique_violation else
  known ← query (λ st,
    match gas_sponsorship_usage.market_id r with
    | Some m => bool_decide (m ∈ markets st)
    | None => true
    end);
  if (known : bool) then
    dml (λ st, {| config := config st; whitelist := whitelist st;
                  blocked_users := blocked_users st; quotas := quotas st;
                  usage := usage st ++ [r]; markets := markets st |})
  else raise foreign_key_violation.

Definition set_quota (k : string * Z) (q : user_daily_quotas.row) : plpgsql unit :=
  dml (λ st, {| config := config st; whitelist := whitelist st;
                blocked_users := blocked_users st; quotas := <[k := q]> (quotas st);
                usage := usage st; markets := markets st |}).

(** [INSERT INTO user_daily_quotas (user_address, date, gas_used_today,
      transactions_today, first_transaction_at, last_transaction_at)
    VALUES (p_user_address, CURRENT_DATE, v_total_gas_fee, 1, now(), now())
    ON CONFLICT (user_address, date) DO UPDATE SET
      gas_used_today = user_daily_quotas.gas_used_today + v_total_gas_fee,
      transactions_today = user_daily_quotas.transactions_today + 1,
      last_transaction_at = now(), updated_at = now()].
    Columns the INSERT does not name take their defaults: NULL, and [now()]
    for [updated_at]. *)
Definition upsert_user_daily_quota (s : session)
    (p_user_address : string) (v_total_gas_fee : option Z) : plpgsql unit :=
  let k := (p_user_address, CURRENT_DATE s) in
  existing ← query (λ st, quotas st !! k);
  match existing with
  | None =>
      set_quota k
        {| user_daily_quotas.gas_used_today := v_total_gas_fee;
           user_daily_quotas.remaining_quota := None;
           user_daily_quotas.transactions_today := Some 1;
           user_daily_quotas.daily_limit := None;
           user_daily_quotas.max_transactions_per_day := None;
           user_daily_quotas.first_transaction_at := Some (now s);
           user_daily_quotas.last_transaction_at := Some (now s);
           user_daily_quotas.updated_at := Some (now s) |}
  | Some q =>
      gas ← int8pl (user_daily_quotas.gas_used_today q) v_total_gas_fee;
      txs ← int4pl (user_daily_quotas.transactions_today q) (Some 1);
      set_quota k
        {| user_daily_quotas.gas_used_today := gas;
           user_daily_quotas.remaining_quota := user_daily_quotas.remaining_quota q;
           user_daily_quotas.transactions_today := txs;
           user_daily_quotas.daily_limit := user_daily_quotas.daily_limit q;
           user_daily_quotas.max_transactions_per_day :=
             user_daily_quotas.max_transactions_per_day q;
           user_daily_quotas.first_transaction_at :=
             user_daily_quotas.first_transaction_at q;
           user_daily_quotas.last_transaction_at := Some (now s);
           user_daily_quotas.updated_at := Some (now s) |}
  end.

(** The arguments of one call.  [gas_sponsorship_usage] declares every
    column but [market_id] NOT NULL, so those arguments are values. *)
Record usage_args := {
  p_user_address : string;
  p_market_id : option string;
  p_tx_hash : string;
  p_tx_version : Z;
  p_gas_used : Z;
  p_gas_unit_price : Z;
  p_fee_payer_address : string
}.

Definition record_gas_usage (s : session) (a : usage_args) : plpgsql unit :=
  v_total_gas_fee ← to_bigint (p_gas_used a * p_gas_unit_price a);
  insert_gas_sponsorship_usage
    {| gas_sponsorship_usage.market_id := p_market_id a;
       gas_sponsorship_usage.user_address := p_user_address a;
       gas_sponsorship_usage.tx_hash := p_tx_hash a;
       gas_sponsorship_usage.tx_version := p_tx_version a;
       gas_sponsorship_usage.gas_used := p_gas_used a;
       gas_sponsorship_usage.gas_unit_price := p_gas_unit_price a;
       gas_sponsorship_usage.total_gas_fee := v_total_gas_fee;
       gas_sponsorship_usage.fee_payer_address := p_fee_payer_address a;
       gas_sponsorship_usage.sponsored_at := Some (now s);
       gas_sponsorship_usage.block_height := None |};;
  upsert_user_daily_quota s (p_user_address a) (Some v_total_gas_fee).

(** ** The seeded configuration *)

(** The row migration 003 inserts: [INSERT INTO gas_station_config
    (fee_payer_address, default_daily_limit_per_user,
    max_gas_per_transaction, enabled) VALUES (...)], the other columns at
    their declared defaults. *)
Definition seeded_config (created : Z) : gas_station_config.row :=
  {| gas_station_config.id := "00000000-0000-4000-8000-000000000001";
     gas_station_config.fee_payer_address := "0xGEOMID_FEE_PAYER_ADDRESS";
     gas_station_config.fee_payer_balance := None;
     gas_station_config.min_balance_alert := Some 100000000000;
     gas_station_config.default_daily_limit_per_user := Some 5000000000;
     gas_station_config.max_gas_per_transaction := Some 100000000;
     gas_station_config.max_transactions_per_user_per_day := Some 50;
     gas_station_config.whitelist_enabled := Some false;
     gas_station_config.market_whitelist_enabled := Some true;
     gas_station_config.rate_limit_per_ip := Some 10;
     gas_station_config.rate_limit_window_seconds := Some 60;
     gas_station_config.enabled := Some true;
     gas_station_config.emergency_stop := Some false;
     gas_station_config.created_at := Some created;
     gas_station_config.updated_at := Some created |}.

(** A database holding nothing but the given configuration rows. *)
Definition fresh_db (cfg : list gas_station_config.row) : db :=
  {| config := cfg; whitelist := ∅; blocked_users := ∅; quotas := ∅;
     usage := []; markets := ∅ |}.

(** Functional updates of the three switches of a configuration row. *)
Definition with_switches (enabled emergency_stop whitelist_enabled : option bool)
    (c : gas_station_config.row) : gas_station_config.row :=
  {| gas_station_config.id := gas_station_config.id c;
     gas_station_config.fee_payer_address := gas_station_config.fee_payer_address c;
     gas_station_config.fee_payer_balance := gas_station_config.fee_payer_balance c;
     gas_station_config.min_balance_alert := gas_station_config.min_balance_alert c;
     gas_station_config.default_daily_limit_per_user :=
       gas_station_config.default_daily_limit_per_user c;
     gas_station_config.max_gas_per_transaction :=
       gas_station_config.max_gas_per_transaction c;
     gas_station_config.max_transactions_per_user_per_day :=
       gas_station_config.max_transactions_per_user_per_day c;
     gas_station_config.whitelist_enabled := whitelist_enabled;
     gas_station_config.market_whitelist_enabled :=
       gas_station_config.market_whitelist_enabled c;
     gas_station_config.rate_limit_per_ip := gas_station_config.rate_limit_per_ip c;
     gas_station_config.rate_limit_window_seconds :=
       gas_station_config.rate_limit_window_seconds c;
     gas_station_config.enabled := enabled;
     gas_station_config.emergency_stop := emergency_stop;
     gas_station_config.created_at := gas_station_config.created_at c;
     gas_station_config.updated_at := gas_station_config.updated_at c |}.

(** ** Reading the ledger *)

(** The two counters of the row of user [u] for day [d]; a user without
    a row for the day has used nothing, which is also how
    [check_user_gas_quota] reads it. *)
Definition gas_used_on (d : Z) (u : string) (st : db) : option Z :=
  match quotas st !! (u, d) with
  | Some q => user_daily_quotas.gas_used_today q
  | None => Some 0
  end.

Definition transactions_on (d : Z) (u : string) (st : db) : option Z :=
  match quotas st !! (u, d) with
  | Some q => user_daily_quotas.transactions_today q
  | None => Some 0
  end.

Definition used_today (s : session) : string → db → option Z :=
  gas_used_on (CURRENT_DATE s).

(** The custom limit of the user's active whitelist entry. *)
Definition whitelist_custom_limit (u : string) (st : db) : option Z :=
  match whitelist st !! u with
  | Some w =>
      if Sql.holds (Sql.eqb3 (gas_station_whitelist.is_active w) (Some true))
      then gas_station_whitelist.custom_daily_limit w else None
  | None => None
  end.

(** The per-user override stored in today's quota row. *)
Definition quota_row_limit (s : session) (u : string) (st : db) : option Z :=
  quotas st !! (u, CURRENT_DATE s) ≫= user_daily_quotas.daily_limit.

Definition global_default_limit (st : db) : option Z :=
  field (head (config st)) gas_station_config.default_daily_limit_per_user.

Definition whitelist_mode (st : db) : bool :=
  Sql.holds (field (head (config st)) gas_station_config.whitelist_enabled).

(** The precedence the specification words: whitelist custom limit, else
    the quota row's override, else the global default. *)
Definition spec_effective_daily_limit (s : session) (u : string) (st : db) : option Z :=
  match whitelist_custom_limit u st with
  | Some l => Some l
  | None =>
      match quota_row_limit s u st with
      | Some l => Some l
      | None => global_default_limit st
      end
  end.

(** The precedence the procedure has: the quota row's override, else the
    whitelist custom limit when whitelist mode is on, else the global
    default. *)
Definition effective_daily_limit (s : session) (u : string) (st : db) : option Z :=
  match quota_row_limit s u st with
  | Some l => Some l
  | None =>
      match (if whitelist_mode st then whitelist_custom_limit u st else None) with
      | Some l => Some l
      | None => global_default_limit st
      end
  end.

(** NULL-propagating subtraction, without the range check. *)
Definition minus3 (a b : option Z) : option Z :=
  match a, b with Some x, Some y => Some (x - y) | _, _ => None end.

(** A procedure that leaves the database it was given, whenever it
    returns. *)
Definition read_only {A} (m : plpgsql A) : Prop :=
  ∀ st, match m st with Returned _ st' => st' = st | Raised _ => True end.

(** ** Sequences of recordings *)

(** Each call runs in its own session; the sequence stands for [N]
    successful calls, so it raises as soon as one of them does. *)
Fixpoint record_all (calls : list (session * usage_args)) : plpgsql unit :=
  match calls with
  | [] => mret tt
  | (s, a) :: rest => record_gas_usage s a;; record_all rest
  end.

(** The amount a call adds to the ledger: [p_gas_used * p_gas_unit_price]. *)
Definition fee (c : session * usage_args) : Z :=
  p_gas_used c.2 * p_gas_unit_price c.2.

(** Whether a call is one of user [u] on day [d]. *)
Definition concerns (d : Z) (u : string) (c : session * usage_args) : bool :=
  bool_decide (p_user_address c.2 = u) && bool_decide (CURRENT_DATE c.1 = d).

(** The fees and the number of the calls of user [u] on day [d]. *)
Fixpoint fees_of (d : Z) (u : string) (calls : list (session * usage_args)) : Z :=
  match calls with
  | [] => 0
  | c :: rest => (if concerns d u c then fee c else 0) + fees_of d u rest
  end.

Fixpoint calls_of (d : Z) (u : string) (calls : list (session * usage_args)) : Z :=
  match calls with
  | [] => 0
  | c :: rest => (if concerns d u c then 1 else 0) + calls_of d u rest
  end.

(** NULL-propagating addition, without the range check. *)
Definition plus3 (a b : option Z) : option Z :=
  match a, b with Some x, Some y => Some (x + y) | _, _ => None end.

(** ** States that differ in transaction counts only *)

Definition with_tx_limit (n : option Z) (c : gas_station_config.row)
  : gas_station_config.row :=
  {| gas_station_config.id := gas_station_config.id c;
     gas_station_config.fee_payer_address := gas_station_config.fee_payer_address c;
     gas_station_config.fee_payer_balance := gas_station_config.fee_payer_balance c;
     gas_station_config.min_balance_alert := gas_station_config.min_balance_alert c;
     gas_station_config.default_daily_limit_per_user :=
       gas_station_config.default_daily_limit_per_user c;
     gas_station_config.max_gas_per_transaction :=
       gas_station_config.max_gas_per_transaction c;
     gas_station_config.max_transactions_per_user_per_day := n;
     gas_station_config.whitelist_enabled := gas_station_config.whitelist_enabled c;
     gas_station_config.market_whitelist_enabled :=
       gas_station_config.market_whitelist_enabled c;
     gas_station_config.rate_limit_per_ip := gas_station_config.rate_limit_per_ip c;
     gas_station_config.rate_limit_window_seconds :=
       gas_station_config.rate_limit_window_seconds c;
     gas_station_config.enabled := gas_station_config.enabled c;
     gas_station_config.emergency_stop := gas_station_config.emergency_stop c;
     gas_station_config.created_at := gas_station_config.created_at c;
     gas_station_config.updated_at := gas_station_config.updated_at c |}.

Definition without_tx_limit : gas_station_config.row → gas_station_config.row :=
  with_tx_limit None.

Definition without_tx_count (q : user_daily_quotas.row) : user_daily_quotas.row :=
  {| user_daily_quotas.gas_used_today := user_daily_quotas.gas_used_today q;
     user_daily_quotas.remaining_quota := user_daily_quotas.remaining_quota q;
     user_daily_quotas.transactions_today := None;
     user_daily_quotas.daily_limit := user_daily_quotas.daily_limit q;
     user_daily_quotas.max_transactions_per_day := None;
     user_daily_quotas.first_transaction_at := user_daily_quotas.first_transaction_at q;
     user_daily_quotas.last_transaction_at := user_daily_quotas.last_transaction_at q;
     user_daily_quotas.updated_at := user_daily_quotas.updated_at q |}.

(** The database with every transaction count and every transaction-count
    limit blanked: [transactions_today] and [max_transactions_per_day] of the
    quota rows, [max_transactions_per_user_per_day] of the configuration. *)
Definition without_tx_counts (st : db) : db :=
  {| config := without_tx_limit <$> config st;
     whitelist := whitelist st;
     blocked_users := blocked_users st;
     quotas := without_tx_count <$> quotas st;
     usage := usage st;
     markets := markets st |}.

(** Two databases differ in those columns at most. *)
Definition same_but_tx_counts (st1 st2 : db) : Prop :=
  without_tx_counts st1 = without_tx_counts st2.

(** The reasons [check_user_gas_quota] has text for. *)
Definition reasons : list string :=
  ["Gas station disabled"; "User blocked"; "User not whitelisted";
   "Daily quota exceeded"; "Gas per transaction limit exceeded"; "OK"].

(** ** Sample data *)

Definition day1 : session := {| now := 1764028800; CURRENT_DATE := 20417 |}.

Definition seeded_db : db := fresh_db [seeded_config 1764000000].

Definition disabled_db : db :=
  fresh_db [with_switches (Some false) (Some false) (Some false)
              (seeded_config 1764000000)].

Definition emergency_db : db :=
  fresh_db [with_switches (Some true) (Some true) (Some false)
              (seeded_config 1764000000)].

Definition whitelist_only_db : db :=
  fresh_db [with_switches (Some true) (Some false) (Some true)
              (seeded_config 1764000000)].

Definition quota_row (used : Z) (limit : option Z) (txs : Z) : user_daily_quotas.row :=
  {| user_daily_quotas.gas_used_today := Some used;
     user_daily_quotas.remaining_quota := None;
     user_daily_quotas.transactions_today := Some txs;
     user_daily_quotas.daily_limit := limit;
     user_daily_quotas.max_transactions_per_day := None;
     user_daily_quotas.first_transaction_at := Some 1764028000;
     user_daily_quotas.last_transaction_at := Some 1764028000;
     user_daily_quotas.updated_at := Some 1764028000 |}.

Definition vip (limit : option Z) : gas_station_whitelist.row :=
  {| gas_station_whitelist.reason := Some "VIP";
     gas_station_whitelist.custom_daily_limit := limit;
     gas_station_whitelist.is_active := Some true;
     gas_station_whitelist.added_by := None;
     gas_station_whitelist.added_at := Some 1764000000;
     gas_station_whitelist.expires_at := None |}.

(** Whitelist mode on, user 0xA whitelisted with a custom limit of 70 APT
    and holding a quota row that overrides the limit to 10 APT. *)
Definition vip_db : db :=
  {| config := config whitelist_only_db;
     whitelist := {[ "0xA" := vip (Some 7000000000) ]};
     blocked_users := ∅;
     quotas := {[ ("0xA", 20417) := quota_row 0 (Some 1000000000) 0 ]};
     usage := [];
     markets := ∅ |}.

(** Whitelist mode off, user 0xA holding an active whitelist entry with a
    custom limit of 70 APT and no quota row yet. *)
Definition vip_open_db : db :=
  {| config := config seeded_db;
     whitelist := {[ "0xA" := vip (Some 7000000000) ]};
     blocked_users := ∅;
     quotas := ∅;
     usage := [];
     markets := ∅ |}.

Definition bet (u h : string) (gas price : Z) : usage_args :=
  {| p_user_address := u; p_market_id := None; p_tx_hash := h; p_tx_version := 1;
     p_gas_used := gas; p_gas_unit_price := price;
     p_fee_payer_address := "0xGEOMID_FEE_PAYER_ADDRESS" |}.

(** ** [cleanup_old_quotas] *)

(** [DELETE FROM user_daily_quotas
     WHERE date < CURRENT_DATE - INTERVAL '30 days'].  The right-hand side
    is the midnight thirty days before today and a date compares as its own
    midnight, so on day numbers the test is [date < CURRENT_DATE - 30]. *)
Definition cleanup_old_quotas (s : session) : plpgsql unit :=
  dml (λ st,
    {| config := config st; whitelist := whitelist st;
       blocked_users := blocked_users st;
       quotas := filter (λ kv, ¬ kv.1.2 < CURRENT_DATE s - 30) (quotas st);
       usage := usage st; markets := markets st |}).

(** ** More readings of the ledger *)

(** The database with the block-list entry of [u] taken out. *)
Definition unblocked (u : string) (st : db) : db :=
  {| config := config st; whitelist := whitelist st;
     blocked_users := delete u (blocked_users st);
     quotas := quotas st; usage := usage st; markets := markets st |}.

(** The hashes of the usage log. *)
Definition logged_hashes (st : db) : list string :=
  gas_sponsorship_usage.tx_hash <$> usage st.

(** The row [record_gas_usage] logs for a call. *)
Definition usage_row (s : session) (a : usage_args) : gas_sponsorship_usage.row :=
  {| gas_sponsorship_usage.market_id := p_market_id a;
     gas_sponsorship_usage.user_address := p_user_address a;
     gas_sponsorship_usage.tx_hash := p_tx_hash a;
     gas_sponsorship_usage.tx_version := p_tx_version a;
     gas_sponsorship_usage.gas_used := p_gas_used a;
     gas_sponsorship_usage.gas_unit_price := p_gas_unit_price a;
     gas_sponsorship_usage.total_gas_fee := p_gas_used a * p_gas_unit_price a;
     gas_sponsorship_usage.fee_payer_address := p_fee_payer_address a;
     gas_sponsorship_usage.sponsored_at := Some (now s);
     gas_sponsorship_usage.block_height := None |}.

(** A logged row whose total is its gas times its unit price, as a BIGINT. *)
Definition fee_consistent (r : gas_sponsorship_usage.row) : Prop :=
  gas_sponsorship_usage.total_gas_fee r
    = gas_sponsorship_usage.gas_used r * gas_sponsorship_usage.gas_unit_price r
  ∧ in_bigint (gas_sponsorship_usage.total_gas_fee r) = true.

(** Whether the counters of a quota row have room for one more recording
    of [f]: NULL counters stay NULL and always have. *)
Definition counters_have_room (f : Z) (q : user_daily_quotas.row) : Prop :=
  (∀ x, user_daily_quotas.gas_used_today q = Some x → in_bigint (x + f) = true)
  ∧ (∀ n, user_daily_quotas.transactions_today q = Some n → in_int (n + 1) = true).

(** More sample data: a block list, a known market. *)
Definition ban (until : option Z) : gas_station_blocked_users.row :=
  {| gas_station_blocked_users.reason := "abuse";
     gas_station_blocked_users.blocked_until := until;
     gas_station_blocked_users.blocked_by := None;
     gas_station_blocked_users.blocked_at := Some 1764000000 |}.

Definition banned_db (until : option Z) : db :=
  {| config := config seeded_db; whitelist := ∅;
     blocked_users := {[ "0xA" := ban until ]};
     quotas := ∅; usage := []; markets := ∅ |}.

Definition spent_db (used : Z) : db :=
  {| config := config seeded_db; whitelist := ∅; blocked_users := ∅;
     quotas := {[ ("0xA", 20417) := quota_row used None 3 ]};
     usage := []; markets := ∅ |}.

Definition bet_on (m u h : string) (gas price : Z) : usage_args :=
  {| p_user_address := u; p_market_id := Some m; p_tx_hash := h; p_tx_version := 1;
     p_gas_used := gas; p_gas_unit_price := price;
     p_fee_payer_address := "0xGEOMID_FEE_PAYER_ADDRESS" |}.

(** ** Contract versions: [src/lib/contracts/contract-version-service.ts] *)

(** The service the route handler of phase 1 asks for the function to
    call.  Text is ASCII text.  One call runs to its end before the next
    starts; its [await]s are the points where it reads the world. *)

(** A row of [blockchain_contracts] as the client receives it. *)
Module BlockchainContract.
Record t := {
  id : string;
  version : string;
  contract_type : string;
  module_names : list (option string);
  account_address : string;
  network : string;
  is_latest : option bool;
  deployment_status : option string;
  chain_status : option string;
  deployed_at : option string;
  deployed_by : option string;
  notes : option string
}.
End BlockchainContract.

(** A JavaScript [Map] with string keys: the entries in insertion order;
    [set] on a key that is there replaces its value where it stands. *)
Module JsMap.
Fixpoint set {V} (k : string) (v : V) (m : list (string * V)) : list (string * V) :=
  match m with
  | [] => [(k, v)]
  | (k', v') :: m' => if decide (k' = k) then (k, v) :: m' else (k', v') :: set k v m'
  end.

Fixpoint get {V} (k : string) (m : list (string * V)) : option V :=
  match m with
  | [] => None
  | (k', v') :: m' => if decide (k' = k) then Some v' else get k m'
  end.

Definition values {V} (m : list (string * V)) : list V := m.*2.
End JsMap.

(** The module's two variables. *)
Record service_state := {
  contractCache : list (string * BlockchainContract.t);
  cacheTimestamp : Z
}.

Definition service_start : service_state :=
  {| contractCache := []; cacheTimestamp := 0 |}.

Definition CACHE_TTL : Z := 60 * 1000.

(** [process.env.NEXT_PUBLIC_APTOS_NETWORK || 'testnet'] *)
Definition network_of (NEXT_PUBLIC_APTOS_NETWORK : option string) : string :=
  match NEXT_PUBLIC_APTOS_NETWORK with
  | None | Some EmptyString => "testnet"
  | Some n => n
  end.

(** What a call finds outside: the clock, the table, and whether the
    database answers. *)
Record world := {
  Date_now : Z;
  blockchain_contracts : list BlockchainContract.t;
  supabase_error : option string
}.

(** An async function: it fulfils or rejects with an [Error], and what it
    did to the module's variables before rejecting stays done. *)
Inductive settled (A : Type) :=
| Fulfilled (a : A)
| Rejected (message : string).
Arguments Fulfilled {A} a.
Arguments Rejected {A} message.

Definition task (A : Type) : Type := service_state → settled A * service_state.

#[global] Instance task_ret : MRet task := λ A a σ, (Fulfilled a, σ).

#[global] Instance task_bind : MBind task := λ A B f m σ,
  match m σ with
  | (Fulfilled a, σ') => f a σ'
  | (Rejected e, σ') => (Rejected e, σ')
  end.

Definition throw {A} (message : string) : task A := λ σ, (Rejected message, σ).

(** Reading one of the module's variables. *)
Definition inspect {A} (f : service_state → A) : task A := λ σ, (Fulfilled (f σ), σ).

Definition state_after {A} (m : task A) (σ : service_state) : service_state := (m σ).2.

(** [supabase.from('blockchain_contracts').select('*').eq('is_latest', true)
      .eq('network', network).eq('deployment_status', 'active')] *)
Definition wanted (env : option string) (c : BlockchainContract.t) : Prop :=
  BlockchainContract.is_latest c = Some true
  ∧ BlockchainContract.network c = network_of env
  ∧ BlockchainContract.deployment_status c = Some "active".

#[global] Instance wanted_dec env c : Decision (wanted env c).
Proof. unfold wanted. apply _. Defined.

Definition select_latest_contracts (env : option string) (w : world)
  : string + list BlockchainContract.t :=
  match supabase_error w with
  | Some message => inl message
  | None => inr (filter (wanted env) (blockchain_contracts w))
  end.

Definition type_key (c : BlockchainContract.t) : string :=
  "type:" +:+ BlockchainContract.contract_type c.

(** The loop of [loadContractVersions] over the rows, from the cleared
    cache. *)
Definition fill_cache (data : list BlockchainContract.t)
  : list (string * BlockchainContract.t) :=
  foldl (λ cache contract,
           JsMap.set (type_key contract) contract
             (JsMap.set (BlockchainContract.version contract) contract cache))
        [] data.

Definition loadContractVersions (env : option string) (w : world) : task unit := λ σ,
  let now := Date_now w in
  if bool_decide (cacheTimestamp σ > 0)
     && bool_decide (now - cacheTimestamp σ < CACHE_TTL)
  then (Fulfilled tt, σ)
  else
    match select_latest_contracts env w with
    | inl message =>
        (Rejected ("Failed to load contract versions: " +:+ message), σ)
    | inr data =>
        (Fulfilled tt, {| contractCache := fill_cache data; cacheTimestamp := now |})
    end.

(** [contractCache.clear(); cacheTimestamp = 0] *)
Definition reset_cache : task unit :=
  λ _, (Fulfilled tt, {| contractCache := []; cacheTimestamp := 0 |}).

Definition refreshContractVersions (env : option string) (w : world) : task unit :=
  reset_cache;; loadContractVersions env w.

(** [contractCache.get(version) || null] *)
Definition getContractByVersion (env : option string) (w : world) (version : string)
  : task (option BlockchainContract.t) :=
  loadContractVersions env w;;
  inspect (λ σ, JsMap.get version (contractCache σ)).

(** [s.includes(pattern)] *)
Fixpoint includes (pattern s : string) : bool :=
  String.prefix pattern s
  || match s with
     | EmptyString => false
     | String _ s' => includes pattern s'
     end.

(** [a || b] on values that are an object or [undefined]. *)
Definition or_else {A} (a b : option A) : option A :=
  match a with Some x => Some x | None => b end.

(** [contractCache.get(k1) || ... ||
     Array.from(contractCache.values()).find(c =>
       c.version.includes(pattern) && c.is_latest)] *)
Definition pick_contract (keys : list string) (pattern : string)
    (cache : list (string * BlockchainContract.t)) : option BlockchainContract.t :=
  foldr (λ k rest, or_else (JsMap.get k cache) rest)
    (List.find (λ c, includes pattern (BlockchainContract.version c)
                     && bool_decide (BlockchainContract.is_latest c = Some true))
       (JsMap.values cache))
    keys.

(** The four getters are this one shape, with their keys, their pattern and
    the name in their message. *)
Definition get_contract (keys : list string) (pattern name : string)
    (env : option string) (w : world) : task BlockchainContract.t :=
  loadContractVersions env w;;
  found ← inspect (λ σ, pick_contract keys pattern (contractCache σ));
  match found with
  | Some contract => mret contract
  | None =>
      throw (name +:+ " contract not found in database. "
             +:+ "Please add it to blockchain_contracts table.")
  end.

Definition getV3BinaryContract := get_contract ["v3-binary-safe"; "v3-binary"] "v3-binary" "V3 Binary".
Definition getV3MultiContract := get_contract ["v3-multi-safe"; "v3-multi"] "v3-multi" "V3 Multi".
Definition getV4BinaryContract := get_contract ["v4-binary"] "v4-binary" "V4 Binary".
Definition getV4MultiContract := get_contract ["v4-multi"] "v4-multi" "V4 Multi".

(** What a template literal prints for [module_names[0]]: the name,
    ["null"] for a NULL element, ["undefined"] past the end. *)
Definition printed (v : option (option string)) : string :=
  match v with
  | Some (Some name) => name
  | Some None => "null"
  | None => "undefined"
  end.

(** [overrideModuleName || contract.module_names[0]], then
    [`${contract.account_address}::${moduleName}::${functionName}`]. *)
Definition function_path (contract : BlockchainContract.t) (functionName : string)
    (overrideModuleName : option string) : string :=
  let moduleName :=
    match overrideModuleName with
    | None | Some EmptyString => printed (BlockchainContract.module_names contract !! 0%nat)
    | Some name => name
    end in
  BlockchainContract.account_address contract +:+ "::" +:+ moduleName
    +:+ "::" +:+ functionName.

Definition get_function_path (getter : option string → world → task BlockchainContract.t)
    (env : option string) (w : world) (functionName : string)
    (overrideModuleName : option string) : task string :=
  contract ← getter env w;
  mret (function_path contract functionName overrideModuleName).

Definition getV3BinaryFunctionPath := get_function_path getV3BinaryContract.
Definition getV3MultiFunctionPath := get_function_path getV3MultiContract.
Definition getV4BinaryFunctionPath := get_function_path getV4BinaryContract.
Definition getV4MOIFunctionPath := get_function_path getV4MultiContract.

Definition getPlatformAddress (env : option string) (w : world) : task string :=
  contract ← getV3BinaryContract env w;
  mret (BlockchainContract.account_address contract).

(** [marketSystem] is [markets.market_system] at the call in the route
    handler: a text or NULL.  The [switch] compares with [===], case by
    case. *)
Definition getMarketFunctionPath (env : option string) (w : world)
    (marketSystem : option string) (functionName : string)
    (overrideModuleName : option string) : task string :=
  if decide (marketSystem = Some "v3-binary")
  then getV3BinaryFunctionPath env w functionName overrideModuleName
  else if decide (marketSystem = Some "v3-multi")
  then getV3MultiFunctionPath env w functionName overrideModuleName
  else if decide (marketSystem = Some "v4-binary")
  then getV4BinaryFunctionPath env w functionName overrideModuleName
  else if decide (marketSystem = Some "v4-multi")
  then getV4MOIFunctionPath env w functionName overrideModuleName
  else throw ("Unknown market system: " +:+ default "null" marketSystem).

(** Every cached entry sits under its version or under its type tag, and
    is a latest, active contract of the configured network. *)
Definition cache_sound (env : option string) (σ : service_state) : Prop :=
  Forall (λ kc, (kc.1 = BlockchainContract.version kc.2 ∨ kc.1 = type_key kc.2)
                ∧ wanted env kc.2)
         (contractCache σ).

(** Whether a loaded row answers to a key. *)
Definition answers_to (k : string) (c : BlockchainContract.t) : Prop :=
  BlockchainContract.version c = k ∨ type_key c = k.

#[global] Instance answers_to_dec k c : Decision (answers_to k c).
Proof. unfold answers_to. apply _. Defined.

(** The rows of the migration's seed, and a world that holds them. *)
Definition seed_contract (v ty module address : string) : BlockchainContract.t :=
  {| BlockchainContract.id := "c0000000-0000-4000-8000-000000000001";
     BlockchainContract.version := v;
     BlockchainContract.contract_type := ty;
     BlockchainContract.module_names := [Some module];
     BlockchainContract.account_address := address;
     BlockchainContract.network := "testnet";
     BlockchainContract.is_latest := Some true;
     BlockchainContract.deployment_status := Some "active";
     BlockchainContract.chain_status := Some "onchain";
     BlockchainContract.deployed_at := None;
     BlockchainContract.deployed_by := None;
     BlockchainContract.notes := None |}.

Definition seed_contracts : list BlockchainContract.t :=
  [seed_contract "v3-binary-safe" "amm" "v3AMMbinary" "0xYOUR_V3_BINARY_ADDRESS";
   seed_contract "v3-multi-safe" "amm" "v3AMMmulti" "0xYOUR_V3_MULTI_ADDRESS";
   seed_contract "sponsored-v2" "sponsored" "sponsored_markets_v2" "0xYOUR_SPONSORED_ADDRESS";
   seed_contract "helpers" "helpers" "token_naming" "0xYOUR_HELPERS_ADDRESS"].

Definition seeded_world (t : Z) : world :=
  {| Date_now := t; blockchain_contracts := seed_contracts; supabase_error := None |}.

Definition outage (t : Z) : world :=
  {| Date_now := t; blockchain_contracts := seed_contracts;
     supabase_error := Some "connection refused" |}.

(** A quota row whose gas counter is NULL. *)
Definition uncounted_db : db :=
  {| config := config seeded_db; whitelist := ∅; blocked_users := ∅;
     quotas := {[ ("0xA", 20417) :=
       {| user_daily_quotas.gas_used_today := None;
          user_daily_quotas.remaining_quota := None;
          user_daily_quotas.transactions_today := Some 3;
          user_daily_quotas.daily_limit := None;
          user_daily_quotas.max_transactions_per_day := None;
          user_daily_quotas.first_transaction_at := Some 1764028000;
          user_daily_quotas.last_transaction_at := Some 1764028000;
          user_daily_quotas.updated_at := Some 1764028000 |} ]};
     usage := []; markets := ∅ |}.

(** ** [check_user_gas_quota] as declared: arguments that may be NULL *)

(** The function is not declared STRICT, so a call with a NULL argument
    runs the body.  With [p_user_address] NULL, [user_address =
    p_user_address] is NULL for every row and no SELECT finds one. *)
Definition user_blocked_for (s : session) (p_user_address : option string) (st : db)
  : bool :=
  match p_user_address with
  | Some u => user_blocked s u st
  | None => false
  end.

Definition select_whitelist_into_for (p_user_address : option string)
  : plpgsql (option bool * option Z) :=
  match p_user_address with
  | Some u => select_whitelist_into u
  | None => mret (None, None)
  end.

Definition select_quota_today_for (s : session) (p_user_address : option string)
  : plpgsql (option user_daily_quotas.row) :=
  match p_user_address with
  | Some u => select_quota_today s u
  | None => mret None
  end.

(** Lines 275-303 with an estimate that may be NULL: the sum and both
    comparisons are then NULL. *)
Definition quota_decision_nullable (v_config : option gas_station_config.row)
    (p_estimated_gas gas_used_today daily_limit : option Z)
  : plpgsql quota_check.row :=
  needed ← int8pl gas_used_today p_estimated_gas;
  if Sql.holds (Sql.gt3 needed daily_limit)
  then report false gas_used_today daily_limit "Daily quota exceeded" else
  if Sql.holds (Sql.gt3 p_estimated_gas
                        (field v_config gas_station_config.max_gas_per_transaction))
  then report false gas_used_today daily_limit "Gas per transaction limit exceeded" else
  report true gas_used_today daily_limit "OK".

Definition check_user_gas_quota_nullable (s : session)
    (p_user_address : option string) (p_estimated_gas : option Z)
  : plpgsql quota_check.row :=
  v_config ← select_config_limit_1;
  if station_disabled v_config then mret (refusal "Gas station disabled") else
  v_is_blocked ← query (user_blocked_for s p_user_address);
  if (v_is_blocked : bool) then mret (refusal "User blocked") else
  let quota_checks (v_custom_limit : option Z) : plpgsql quota_check.row :=
    v_quota ← select_quota_today_for s p_user_address;
    let default := field v_config gas_station_config.default_daily_limit_per_user in
    let '(gas_used_today, daily_limit) :=
      match v_quota with
      | None => (Some 0, Sql.coalesce [v_custom_limit; default])
      | Some q =>
          (user_daily_quotas.gas_used_today q,
           Sql.coalesce [user_daily_quotas.daily_limit q; v_custom_limit; default])
      end in
    quota_decision_nullable v_config p_estimated_gas gas_used_today daily_limit in
  if Sql.holds (field v_config gas_station_config.whitelist_enabled) then
    '(v_is_whitelisted, v_custom_limit) ← select_whitelist_into_for p_user_address;
    if Sql.holds (Sql.not3 v_is_whitelisted)
    then mret (refusal "User not whitelisted")
    else quota_checks v_custom_limit
  else quota_checks None.

(** The two readings an evaluation makes of the ledger, for an address
    that may be NULL: no row is found for NULL, so nothing is used and no
    override or custom limit applies. *)
Definition used_today_for (s : session) (p_user_address : option string) (st : db)
  : option Z :=
  match p_user_address with
  | Some u => used_today s u st
  | None => Some 0
  end.

Definition effective_daily_limit_for (s : session) (p_user_address : option string)
    (st : db) : option Z :=
  match p_user_address with
  | Some u => effective_daily_limit s u st
  | None => global_default_limit st
  end.

(** A quota row over its limit. *)
Definition overspent_db : db :=
  {| config := config seeded_db; whitelist := ∅; blocked_users := ∅;
     quotas := {[ ("0xA", 20417) := quota_row 6000000000 None 70 ]};
     usage := []; markets := ∅ |}.

(** ** Phase 1: the gas-sponsor service and the route handler *)

(** [src/lib/services/gas-sponsor-service.ts] and the handler
    [POST /api/sponsor/bet].  The request body has the fields the trading
    panel sends, any of them possibly missing.  What the handler finds
    outside (the clock of the database session, the contract table, the
    process environment, the node and the SDK) is one record of the call. *)

(** The columns of a [markets] row the handler looks at, under the row's
    [id].  [contract_module_name] is declared by the [Market] type; no
    migration under [supabase/migrations] has the column, and then it reads
    as undefined. *)
Module markets.
Record row := {
  market_object_address : option string;
  market_system : option string;
  status : option string;
  is_gas_sponsored : option bool;
  contract_module_name : option string
}.
End markets.

(** A JSON number as JavaScript takes it: an integer, or a number with a
    fractional part (never zero), kept as its text. *)
Inductive js_number :=
| integer (z : Z)
| fractional (literal : string).

(** [!n] is false. *)
Definition nonzero (n : js_number) : bool :=
  match n with
  | integer z => negb (z =? 0)
  | fractional _ => true
  end.

(** [BigInt(n)]: a RangeError for a number that is no integer. *)
Definition BigInt (n : js_number) : option Z :=
  match n with
  | integer z => Some z
  | fractional _ => None
  end.

(** [!s] is false. *)
Definition nonempty (s : option string) : bool :=
  match s with
  | Some (String _ _) => true
  | _ => false
  end.

(** The body of the request.  [optionIndex] is tested with
    [=== undefined], so a [null] (the inner [None]) is told from a missing
    field. *)
Record bet_request := {
  userAddress : option string;
  marketId : option string;
  marketAddress : option string;
  optionIndex : option (option js_number);
  amount : option js_number
}.

Inductive move_argument :=
| address_argument (a : option string)
| number_argument (n : option js_number)
| bigint_argument (z : Z).

(** The argument of [aptos.transaction.build.simple]. *)
Record build_request := {
  sender : string;
  withFeePayer : bool;
  function : string;
  functionArguments : list move_argument;
  typeArguments : list string
}.

(** What a handler call finds outside.  The three SDK entries are the
    SDK's own functions: [None] is a throw. *)
Record outside := {
  sql_session : session;
  contracts : world;
  NEXT_PUBLIC_APTOS_NETWORK : option string;
  GAS_SPONSOR_PRIVATE_KEY : option string;
  NEXT_PUBLIC_GAS_SPONSOR_ADDRESS : option string;
  markets_error : bool;
  rpc_error : bool;
  Ed25519PrivateKey : string → option string;
  build_simple : build_request → option string;
  signAsFeePayer : string → string → string
}.

(** What the server holds between calls: the database (the ledger and the
    rows of [markets]) and the module variables of the two services. *)
Record backend := {
  ledger : db;
  catalogue : gmap string markets.row;
  versions : service_state;
  feePayerAccount : option string
}.

Definition with_ledger (st : db) (b : backend) : backend :=
  {| ledger := st; catalogue := catalogue b; versions := versions b;
     feePayerAccount := feePayerAccount b |}.

Definition with_versions (σ : service_state) (b : backend) : backend :=
  {| ledger := ledger b; catalogue := catalogue b; versions := σ;
     feePayerAccount := feePayerAccount b |}.

Definition with_feePayerAccount (a : option string) (b : backend) : backend :=
  {| ledger := ledger b; catalogue := catalogue b; versions := versions b;
     feePayerAccount := a |}.

(** A statement sent through the REST interface: an error of the database
    comes back as an error value, its writes rolled back. *)
Definition attempt {A} (m : plpgsql A) : plpgsql (option A) := λ st,
  match m st with
  | Returned a st' => Returned (Some a) st'
  | Raised _ => Returned None st
  end.

(** The parameters of [check_user_gas_quota], with whether they have a
    default. *)
Definition check_user_gas_quota_parameters : list (string * bool) :=
  [("p_user_address", false); ("p_estimated_gas", true)].

(** The REST interface calls a function by name with named arguments: it
    finds the function when every argument names a parameter and every
    parameter without a default is given. *)
Definition rpc_resolves (parameters : list (string * bool)) (given : list string)
  : bool :=
  forallb (λ name, bool_decide (name ∈ parameters.*1)) given
  && forallb (λ p, p.2 || bool_decide (p.1 ∈ given)) parameters.

(** [supabase.rpc('check_user_gas_quota', { p_user_address: ..., [name]:
    ... })]: [data] is the rows the function returns, [None] stands for an
    [error].  The second argument reaches [p_estimated_gas] only under that
    name. *)
Definition rpc_check_user_gas_quota (o : outside) (p_user_address : string)
    (name : string) (value : Z) : plpgsql (option (list quota_check.row)) :=
  if rpc_error o
     || negb (rpc_resolves check_user_gas_quota_parameters ["p_user_address"; name])
  then mret None
  else
    attempt (r ← check_user_gas_quota_nullable (sql_session o)
                   (Some p_user_address) (Some value);
             mret [r]).

(** The answer of [checkUserGasQuota]. *)
Record quota_answer := {
  allowed : bool;
  remaining : Z;
  message : option string
}.

(** [checkUserGasQuota(userAddress, requiredGas)].  With an [error]:
    [{ allowed: false, remaining: 0, message: 'Failed to check quota' }].
    Otherwise [data] is what the function returned: rows with the columns
    [has_quota], [gas_used_today], [remaining_quota], [daily_limit] and
    [reason].  Neither an array of them nor one of them has a property
    [allowed], [remaining] or [message]: [data?.allowed ?? false] is
    [false], [data?.remaining ?? 0] is [0], [data?.message] is
    undefined. *)
Definition checkUserGasQuota (o : outside) (userAddress : string) (requiredGas : Z)
    (b : backend) : quota_answer * backend :=
  match rpc_check_user_gas_quota o userAddress "p_required_amount" requiredGas
          (ledger b) with
  | Returned (Some data) st' =>
      ({| allowed := false; remaining := 0; message := None |}, with_ledger st' b)
  | Returned None st' =>
      ({| allowed := false; remaining := 0;
          message := Some "Failed to check quota" |}, with_ledger st' b)
  | Raised _ =>
      ({| allowed := false; remaining := 0;
          message := Some "Failed to check quota" |}, b)
  end.

(** [getFeePayerAccount()]: the cached account, or the one of the key in
    the environment, which it caches; [None] is a throw. *)
Definition getFeePayerAccount (o : outside) (b : backend) : option string * backend :=
  match feePayerAccount b with
  | Some account => (Some account, b)
  | None =>
      if nonempty (GAS_SPONSOR_PRIVATE_KEY o) then
        match Ed25519PrivateKey o (default "" (GAS_SPONSOR_PRIVATE_KEY o)) with
        | Some key => (Some key, with_feePayerAccount (Some key) b)
        | None => (None, b)
        end
      else (None, b)
  end.

(** [buildSponsoredTransaction(params)]: the transaction and the fee
    payer's authenticator, or a throw. *)
Definition buildSponsoredTransaction (o : outside) (senderAddress functionPath : string)
    (arguments : list move_argument) (b : backend)
  : option (string * string) * backend :=
  match build_simple o {| sender := senderAddress; withFeePayer := true;
                          function := functionPath;
                          functionArguments := arguments;
                          typeArguments := [] |} with
  | None => (None, b)
  | Some transaction =>
      match getFeePayerAccount o b with
      | (None, b') => (None, b')
      | (Some feePayer, b') => (Some (transaction, signAsFeePayer o feePayer transaction), b')
      end
  end.

(** The responses of the handler. *)
Inductive response :=
| error_response (status : Z) (error : string)
| quota_response (status : Z) (error : string) (message : option string) (remaining : Z)
| ready_response (sender functionPath : string) (optionIndex : option js_number)
    (amount : js_number) (feePayerAddress : option string) (estimatedGas : Z).

(** [supabase.from('markets').select('*').eq('id', marketId).single()]:
    the row, or an [error] when the query fails or finds none. *)
Definition select_market (o : outside) (marketId : string) (b : backend)
  : option markets.row :=
  if markets_error o then None else catalogue b !! marketId.

(** The handler.  [None] for the request is a body that is no JSON; every
    throw inside the [try] ends in the 500 of the [catch]. *)
Definition POST (o : outside) (request : option bet_request) (b : backend)
  : response * backend :=
  let failed := error_response 500 "Failed to create sponsored transaction" in
  match request with
  | None => (failed, b)
  | Some body =>
    if negb (nonempty (userAddress body)) || negb (nonempty (marketId body))
       || bool_decide (optionIndex body = None)
       || negb (from_option nonzero false (amount body))
    then (error_response 400 "Missing required fields", b) else
    match select_market o (default "" (marketId body)) b with
    | None => (error_response 404 "Market not found", b)
    | Some market =>
      if negb (bool_decide (markets.is_gas_sponsored market = Some true))
      then (error_response 400 "This market does not support gas sponsorship", b) else
      if negb (bool_decide (markets.status market = Some "active"))
      then (error_response 400 "Market is not active", b) else
      let estimatedGas := 100000 in
      let '(quotaCheck, b1) :=
        checkUserGasQuota o (default "" (userAddress body)) estimatedGas b in
      if negb (allowed quotaCheck)
      then (quota_response 429 "Gas quota exceeded" (message quotaCheck)
              (remaining quotaCheck), b1) else
      match getMarketFunctionPath (NEXT_PUBLIC_APTOS_NETWORK o) (contracts o)
              (markets.market_system market) "buy_with_apt"
              (markets.contract_module_name market) (versions b1) with
      | (Rejected _, σ) => (failed, with_versions σ b1)
      | (Fulfilled functionPath, σ) =>
        let b2 := with_versions σ b1 in
        match amount body ≫= BigInt with
        | None => (failed, b2)
        | Some octas =>
          match buildSponsoredTransaction o (default "" (userAddress body)) functionPath
                  [address_argument
                     (if nonempty (marketAddress body) then marketAddress body
                      else markets.market_object_address market);
                   number_argument (optionIndex body ≫= id);
                   bigint_argument octas] b2 with
          | (None, b3) => (failed, b3)
          | (Some _, b3) =>
              (ready_response (default "" (userAddress body)) functionPath
                 (optionIndex body ≫= id) (default (integer 0) (amount body))
                 (NEXT_PUBLIC_GAS_SPONSOR_ADDRESS o) estimatedGas, b3)
          end
        end
      end
    end
  end.

(** A market that is sponsored and active, and a request for it. *)
Definition open_market : markets.row :=
  {| markets.market_object_address := Some "0x5ea1";
     markets.market_system := Some "v3-binary";
     markets.status := Some "active";
     markets.is_gas_sponsored := Some true;
     markets.contract_module_name := None |}.

Definition sample_backend : backend :=
  {| ledger := spent_db 4950000000;
     catalogue := {[ "6f1c0000-0000-4000-8000-00000000000a" := open_market ]};
     versions := service_start;
     feePayerAccount := None |}.

Definition sample_outside : outside :=
  {| sql_session := day1;
     contracts := seeded_world 1764028800000;
     NEXT_PUBLIC_APTOS_NETWORK := None;
     GAS_SPONSOR_PRIVATE_KEY := Some "0x5ec7e7";
     NEXT_PUBLIC_GAS_SPONSOR_ADDRESS := Some "0xGEOMID_FEE_PAYER_ADDRESS";
     markets_error := false;
     rpc_error := false;
     Ed25519PrivateKey := λ hex, Some hex;
     build_simple := λ r, Some (function r);
     signAsFeePayer := λ key transaction, key +:+ "/" +:+ transaction |}.

Definition sample_request : bet_request :=
  {| userAddress := Some "0xA";
     marketId := Some "6f1c0000-0000-4000-8000-00000000000a";
     marketAddress := Some "0x5ea1";
     optionIndex := Some (Some (integer 0));
     amount := Some (integer 150000000) |}.

(** * Properties *)

(** ** Procedures that only read *)

Lemma read_only_ret {A} (a : A) : read_only (mret a).
Proof. by intros st. Qed.

Lemma read_only_query {A} (q : db → A) : read_only (query q).
Proof. by intros st. Qed.

Lemma read_only_raise {A} (e : sqlstate) : read_only (raise (A := A) e).
Proof. by intros st. Qed.

Lemma read_only_bind {A B} (m : plpgsql A) (k : A → plpgsql B) :
  read_only m → (∀ a, read_only (k a)) → read_only (m ≫= k).
Proof.
  intros Hm Hk st. unfold mbind, plpgsql_bind.
  specialize (Hm st). destruct (m st) as [a st'|e]; [|done].
  subst st'. apply Hk.
Qed.

Lemma read_only_if {A} (b : bool) (m1 m2 : plpgsql A) :
  read_only m1 → read_only m2 → read_only (if b then m1 else m2).
Proof. by destruct b. Qed.

Create HintDb frame.
#[local] Hint Resolve read_only_ret read_only_query read_only_raise : frame.
#[local] Hint Extern 2 (read_only (_ ≫= _)) => apply read_only_bind; [|intros ?] : frame.
#[local] Hint Extern 2 (read_only (if _ then _ else _)) => apply read_only_if : frame.

Lemma read_only_to_bigint z : read_only (to_bigint z).
Proof. unfold to_bigint. auto with frame. Qed.

Lemma read_only_to_int z : read_only (to_int z).
Proof. unfold to_int. auto with frame. Qed.

Lemma read_only_arith fit op a b :
  (∀ z, read_only (fit z)) → read_only (arith fit op a b).
Proof. intros Hfit. unfold arith. destruct a, b; auto with frame. Qed.

#[local] Hint Resolve read_only_to_bigint read_only_to_int read_only_arith : frame.

Lemma read_only_report ok used limit msg : read_only (report ok used limit msg).
Proof. unfold report, int8mi. auto with frame. Qed.

#[local] Hint Resolve read_only_report : frame.

Lemma read_only_quota_decision v_config g used limit :
  read_only (quota_decision v_config g used limit).
Proof. unfold quota_decision, int8pl. auto 10 with frame. Qed.

#[local] Hint Resolve read_only_quota_decision : frame.

Lemma read_only_check s u g : read_only (check_user_gas_quota s u g).
Proof.
  unfold check_user_gas_quota, select_config_limit_1, select_whitelist_into,
    select_quota_today.
  apply read_only_bind; [auto with frame|]. intros v_config.
  apply read_only_if; [auto with frame|].
  apply read_only_bind; [auto with frame|]. intros v_is_blocked.
  apply read_only_if; [auto with frame|].
  assert (∀ v_custom_limit, read_only (
    v_quota ← query (λ st, quotas st !! (u, CURRENT_DATE s));
    let '(gas_used_today, daily_limit) :=
      match v_quota with
      | None =>
          (Some 0, Sql.coalesce
             [v_custom_limit;
              field v_config gas_station_config.default_daily_limit_per_user])
      | Some q =>
          (user_daily_quotas.gas_used_today q,
           Sql.coalesce
             [user_daily_quotas.daily_limit q; v_custom_limit;
              field v_config gas_station_config.default_daily_limit_per_user])
      end in
    quota_decision v_config g gas_used_today daily_limit)) as Hrest.
  { intros c. apply read_only_bind; [auto with frame|].
    intros [q|]; auto with frame. }
  apply read_only_if; [|apply Hrest].
  apply read_only_bind; [auto with frame|]. intros [w c].
  apply read_only_if; [auto with frame|apply Hrest].
Qed.

(** ** Symbolic execution of [check_user_gas_quota] *)

Ltac run_plpgsql :=
  cbv [mbind plpgsql_bind mret plpgsql_ret query raise].

Lemma in_bigint_iff z : in_bigint z = true ↔ - 2 ^ 63 ≤ z ≤ 2 ^ 63 - 1.
Proof. unfold in_bigint, bigint_min, bigint_max. lia. Qed.

Lemma check_station_disabled s u g st :
  station_disabled (head (config st)) = true →
  check_user_gas_quota s u g st = Returned (refusal "Gas station disabled") st.
Proof.
  intros Hd. unfold check_user_gas_quota, select_config_limit_1. run_plpgsql.
  by rewrite Hd.
Qed.

Lemma check_user_blocked s u g st :
  station_disabled (head (config st)) = false →
  user_blocked s u st = true →
  check_user_gas_quota s u g st = Returned (refusal "User blocked") st.
Proof.
  intros Hd Hb. unfold check_user_gas_quota, select_config_limit_1. run_plpgsql.
  by rewrite Hd, Hb.
Qed.

(** Past the two gates the whitelist block never refuses: it only decides
    which custom limit the quota checks see. *)
Lemma check_past_gates s u g st :
  station_disabled (head (config st)) = false →
  user_blocked s u st = false →
  check_user_gas_quota s u g st =
    quota_decision (head (config st)) g (used_today s u st)
      (effective_daily_limit s u st) st.
Proof.
  intros Hd Hb.
  unfold check_user_gas_quota, select_config_limit_1, select_whitelist_into,
    select_quota_today.
  run_plpgsql. rewrite Hd, Hb.
  unfold used_today, gas_used_on, effective_daily_limit, quota_row_limit,
    whitelist_mode, whitelist_custom_limit, global_default_limit,
    active_whitelist_rows.
  destruct (Sql.holds (field (head (config st)) gas_station_config.whitelist_enabled));
    destruct (whitelist st !! u) as [w|];
    try destruct (Sql.holds (Sql.eqb3 (gas_station_whitelist.is_active w) (Some true)));
    simpl;
    destruct (quotas st !! (u, CURRENT_DATE s)) as [q|]; simpl;
    try destruct (user_daily_quotas.daily_limit q);
    try destruct (gas_station_whitelist.custom_daily_limit w);
    try reflexivity;
    by destruct (field (head (config st))
                   gas_station_config.default_daily_limit_per_user).
Qed.

Ltac unfold_decision :=
  unfold quota_decision, report, int8pl, int8mi, arith, to_bigint;
  run_plpgsql.

(** What any row returned by the quota checks looks like. *)
Lemma quota_decision_returns v_config g used limit st r st' :
  quota_decision v_config g used limit st = Returned r st' →
  st' = st
  ∧ quota_check.gas_used_today r = used
  ∧ quota_check.daily_limit r = limit
  ∧ quota_check.remaining_quota r = minus3 limit used
  ∧ quota_check.reason r ∈
      ["Daily quota exceeded"; "Gas per transaction limit exceeded"; "OK"].
Proof.
  unfold_decision. intros H.
  repeat case_match; simplify_eq; simpl; repeat split; set_solver.
Qed.

Lemma quota_decision_exceeded v_config g U L st :
  in_bigint (U + g) = true → in_bigint (L - U) = true → L < U + g →
  quota_decision v_config g (Some U) (Some L) st =
    Returned {| quota_check.has_quota := false;
                quota_check.gas_used_today := Some U;
                quota_check.remaining_quota := Some (L - U);
                quota_check.daily_limit := Some L;
                quota_check.reason := "Daily quota exceeded" |} st.
Proof.
  intros Hsum Hrem Hlt. unfold_decision. rewrite Hsum. simpl.
  destruct (Z.ltb_spec L (U + g)); [|lia]. simpl. by rewrite Hrem.
Qed.

Lemma quota_decision_per_tx v_config g U L m st :
  in_bigint (U + g) = true → in_bigint (L - U) = true → U + g ≤ L →
  field v_config gas_station_config.max_gas_per_transaction = Some m → m < g →
  quota_decision v_config g (Some U) (Some L) st =
    Returned {| quota_check.has_quota := false;
                quota_check.gas_used_today := Some U;
                quota_check.remaining_quota := Some (L - U);
                quota_check.daily_limit := Some L;
                quota_check.reason := "Gas per transaction limit exceeded" |} st.
Proof.
  intros Hsum Hrem Hle Hmax Hlt. unfold_decision. rewrite Hsum, Hmax. simpl.
  destruct (Z.ltb_spec L (U + g)); [lia|].
  destruct (Z.ltb_spec m g); [|lia]. simpl. by rewrite Hrem.
Qed.

Lemma quota_decision_ok v_config g U L st :
  in_bigint (U + g) = true → in_bigint (L - U) = true → U + g ≤ L →
  Sql.holds (Sql.gt3 (Some g)
     (field v_config gas_station_config.max_gas_per_transaction)) = false →
  quota_decision v_config g (Some U) (Some L) st =
    Returned {| quota_check.has_quota := true;
                quota_check.gas_used_today := Some U;
                quota_check.remaining_quota := Some (L - U);
                quota_check.daily_limit := Some L;
                quota_check.reason := "OK" |} st.
Proof.
  intros Hsum Hrem Hle Hmax. unfold_decision. rewrite Hsum, Hmax. simpl.
  destruct (Z.ltb_spec L (U + g)); [lia|]. simpl. by rewrite Hrem.
Qed.

(** A row with [has_quota] comes from the quota checks, so both gates were
    open. *)
Lemma approved_past_gates s u g st r st' :
  check_user_gas_quota s u g st = Returned r st' →
  quota_check.has_quota r = true →
  station_disabled (head (config st)) = false ∧ user_blocked s u st = false.
Proof.
  intros Hret Hok.
  destruct (station_disabled (head (config st))) eqn:Hd.
  { rewrite (check_station_disabled _ _ _ _ Hd) in Hret. by simplify_eq. }
  destruct (user_blocked s u st) eqn:Hb; [|done].
  rewrite (check_user_blocked _ _ _ _ Hd Hb) in Hret. by simplify_eq.
Qed.

(** The refusal ['User not whitelisted'] is dead code: [v_is_whitelisted]
    is TRUE when the SELECT finds the user's active row and NULL when it
    finds none, and [NOT NULL] does not pass the IF. *)
Lemma never_not_whitelisted s u g st r st' :
  check_user_gas_quota s u g st = Returned r st' →
  quota_check.reason r ≠ "User not whitelisted".
Proof.
  intros Hret.
  destruct (station_disabled (head (config st))) eqn:Hd.
  { rewrite (check_station_disabled _ _ _ _ Hd) in Hret. by simplify_eq. }
  destruct (user_blocked s u st) eqn:Hb.
  { rewrite (check_user_blocked _ _ _ _ Hd Hb) in Hret. by simplify_eq. }
  rewrite (check_past_gates _ _ _ _ Hd Hb) in Hret.
  apply quota_decision_returns in Hret as (_ & _ & _ & _ & Hin).
  intros Heq. rewrite Heq, !elem_of_cons, elem_of_nil in Hin.
  destruct Hin as [?|[?|[?|[]]]]; discriminate.
Qed.

(** ** The claims *)

(** C1 (the procedure does not do what the claim says).  Whitelist mode on,
    no whitelist entry at all: the user is not refused with
    ['User not whitelisted'] but taken through the quota arithmetic and
    approved against the global default limit. *)
Theorem C1_unlisted_user_is_approved :
  whitelist_mode whitelist_only_db = true
  ∧ whitelist whitelist_only_db !! "0xA" = None
  ∧ result (check_user_gas_quota day1 "0xA" 100000 whitelist_only_db) =
      inr {| quota_check.has_quota := true;
             quota_check.gas_used_today := Some 0;
             quota_check.remaining_quota := Some 5000000000;
             quota_check.daily_limit := Some 5000000000;
             quota_check.reason := "OK" |}.
Proof. by vm_compute. Qed.

(** C2, as the specification words it, fails on its own scenario: with the
    seeded limits and nothing used, an estimate of 100000000 is approved with
    a remaining quota of 5000000000, not 4900000000. *)
Lemma C2_counterexample :
  ∃ r, result (check_user_gas_quota day1 "0xA" 100000000 seeded_db) = inr r
       ∧ quota_check.has_quota r = true
       ∧ quota_check.remaining_quota r = Some 5000000000
       ∧ quota_check.remaining_quota r ≠ Some (5000000000 - 0 - 100000000).
Proof. eexists. by vm_compute. Qed.

(** C2 (amended).  For every approved evaluation the returned remaining
    quota is the effective daily limit minus the gas already used today;
    the estimated cost of the proposed transaction is not subtracted. *)
Theorem C2_remaining_quota_before_estimate s u g st r st' :
  check_user_gas_quota s u g st = Returned r st' →
  quota_check.has_quota r = true →
  quota_check.daily_limit r = effective_daily_limit s u st
  ∧ quota_check.gas_used_today r = used_today s u st
  ∧ quota_check.remaining_quota r =
      minus3 (effective_daily_limit s u st) (used_today s u st).
Proof.
  intros Hret Hok.
  destruct (approved_past_gates _ _ _ _ _ _ Hret Hok) as [Hd Hb].
  rewrite (check_past_gates _ _ _ _ Hd Hb) in Hret.
  apply quota_decision_returns in Hret as (_ & Hu & Hl & Hr & _).
  by rewrite Hu, Hl, Hr.
Qed.

(** The scenario of C2 through the theorem: approved, 5000000000 left. *)
Lemma C2_witness :
  check_user_gas_quota day1 "0xA" 100000000 seeded_db =
    Returned {| quota_check.has_quota := true;
                quota_check.gas_used_today := Some 0;
                quota_check.remaining_quota := Some 5000000000;
                quota_check.daily_limit := Some 5000000000;
                quota_check.reason := "OK" |} seeded_db
  ∧ Some 5000000000 =
      minus3 (effective_daily_limit day1 "0xA" seeded_db)
             (used_today day1 "0xA" seeded_db).
Proof.
  assert (check_user_gas_quota day1 "0xA" 100000000 seeded_db =
    Returned {| quota_check.has_quota := true;
                quota_check.gas_used_today := Some 0;
                quota_check.remaining_quota := Some 5000000000;
                quota_check.daily_limit := Some 5000000000;
                quota_check.reason := "OK" |} seeded_db) as Hrun
    by (vm_compute; reflexivity).
  split; [exact Hrun|].
  exact (proj2 (proj2
    (C2_remaining_quota_before_estimate _ _ _ _ _ _ Hrun eq_refl))).
Defined.

(** C3, as the specification words it, fails twice.  In whitelist mode, for
    a whitelisted user with a custom limit of 7000000000 whose quota row
    overrides the limit to 1000000000, the specification's precedence gives
    7000000000 and the procedure evaluates against 1000000000.  Outside
    whitelist mode, for the same whitelist entry and no quota row, the
    specification's precedence gives 7000000000 and the procedure evaluates
    against the global default 5000000000. *)
Lemma C3_counterexample :
  (∃ r, result (check_user_gas_quota day1 "0xA" 100000 vip_db) = inr r
        ∧ spec_effective_daily_limit day1 "0xA" vip_db = Some 7000000000
        ∧ quota_check.daily_limit r = Some 1000000000)
  ∧ (∃ r, result (check_user_gas_quota day1 "0xA" 100000 vip_open_db) = inr r
          ∧ spec_effective_daily_limit day1 "0xA" vip_open_db = Some 7000000000
          ∧ quota_check.daily_limit r = Some 5000000000).
Proof. split; eexists; by vm_compute. Qed.

(** C3 (amended).  Every evaluation that gets past the kill switch and the
    block list resolves the daily limit as: the override stored in the
    user's quota row for today if it is not NULL, otherwise the custom limit
    of the user's active whitelist entry when whitelist mode is on,
    otherwise the global default of the configuration. *)
Theorem C3_limit_precedence s u g st r st' :
  station_disabled (head (config st)) = false →
  user_blocked s u st = false →
  check_user_gas_quota s u g st = Returned r st' →
  quota_check.daily_limit r =
    match quota_row_limit s u st with
    | Some row_override => Some row_override
    | None =>
        match (if whitelist_mode st then whitelist_custom_limit u st else None) with
        | Some custom => Some custom
        | None => global_default_limit st
        end
    end.
Proof.
  intros Hd Hb Hret.
  rewrite (check_past_gates _ _ _ _ Hd Hb) in Hret.
  by apply quota_decision_returns in Hret as (_ & _ & Hl & _).
Qed.

Lemma C3_witness :
  ∃ r, check_user_gas_quota day1 "0xA" 100000 vip_db = Returned r vip_db
       ∧ quota_check.daily_limit r = Some 1000000000.
Proof.
  eexists. split; [vm_compute; reflexivity|].
  exact (C3_limit_precedence day1 "0xA" 100000 vip_db _ vip_db
           eq_refl eq_refl eq_refl).
Defined.

(** C5, as the specification words it, fails: the emergency stop is
    refused with the very reason a disabled station is refused with. *)
Lemma C5_counterexample :
  field (head (config emergency_db)) gas_station_config.enabled = Some true
  ∧ field (head (config emergency_db)) gas_station_config.emergency_stop = Some true
  ∧ field (head (config disabled_db)) gas_station_config.enabled = Some false
  ∧ field (head (config disabled_db)) gas_station_config.emergency_stop = Some false
  ∧ result (check_user_gas_quota day1 "0xA" 100000 emergency_db) =
      inr (refusal "Gas station disabled")
  ∧ result (check_user_gas_quota day1 "0xA" 100000 disabled_db) =
      inr (refusal "Gas station disabled").
Proof. by vm_compute. Qed.

(** C5 (amended).  When [enabled] is false or [emergency_stop] is true the
    evaluation is refused, whatever the quota state, and both switches give
    the one reason ['Gas station disabled']. *)
Theorem C5_kill_switches_one_reason s u g st c :
  head (config st) = Some c →
  gas_station_config.enabled c = Some false
    ∨ gas_station_config.emergency_stop c = Some true →
  check_user_gas_quota s u g st = Returned (refusal "Gas station disabled") st.
Proof.
  intros Hc Hoff. apply check_station_disabled.
  rewrite Hc. unfold station_disabled. simpl.
  destruct Hoff as [-> | ->]; [done|].
  by destruct (gas_station_config.enabled c) as [[]|].
Qed.

Lemma C5_witness :
  check_user_gas_quota day1 "0xA" 100000 emergency_db =
    Returned (refusal "Gas station disabled") emergency_db.
Proof.
  apply (C5_kill_switches_one_reason day1 "0xA" 100000 emergency_db
           (with_switches (Some true) (Some true) (Some false)
              (seeded_config 1764000000)));
    [reflexivity | right; reflexivity].
Defined.

(** C6, as the specification words it, fails: with the seeded limits and
    nothing used, an estimate equal to the whole daily limit passes the
    daily check and is refused by the per-transaction check after it. *)
Lemma C6_counterexample :
  station_disabled (head (config seeded_db)) = false
  ∧ user_blocked day1 "0xA" seeded_db = false
  ∧ effective_daily_limit day1 "0xA" seeded_db = Some 5000000000
  ∧ used_today day1 "0xA" seeded_db = Some 0
  ∧ result (check_user_gas_quota day1 "0xA" (5000000000 - 0) seeded_db) =
      inr {| quota_check.has_quota := false;
             quota_check.gas_used_today := Some 0;
             quota_check.remaining_quota := Some 5000000000;
             quota_check.daily_limit := Some 5000000000;
             quota_check.reason := "Gas per transaction limit exceeded" |}.
Proof. by vm_compute. Qed.

(** C6 (amended).  For every user state past the kill switch and the block
    list, with effective daily limit [L] and [U] used today: an estimate of
    [L - U] that is also within the per-transaction limit is approved, and an
    estimate of [L - U + 1] is refused with ['Daily quota exceeded'], as long
    as [L + 1] is still a BIGINT. *)
Theorem C6_daily_quota_boundary s u st U L :
  station_disabled (head (config st)) = false →
  user_blocked s u st = false →
  used_today s u st = Some U →
  effective_daily_limit s u st = Some L →
  in_bigint L = true →
  in_bigint (L - U) = true →
  ((∀ m, field (head (config st)) gas_station_config.max_gas_per_transaction = Some m →
         L - U ≤ m) →
   check_user_gas_quota s u (L - U) st =
     Returned {| quota_check.has_quota := true;
                 quota_check.gas_used_today := Some U;
                 quota_check.remaining_quota := Some (L - U);
                 quota_check.daily_limit := Some L;
                 quota_check.reason := "OK" |} st)
  ∧ (in_bigint (L + 1) = true →
     check_user_gas_quota s u (L - U + 1) st =
       Returned {| quota_check.has_quota := false;
                   quota_check.gas_used_today := Some U;
                   quota_check.remaining_quota := Some (L - U);
                   quota_check.daily_limit := Some L;
                   quota_check.reason := "Daily quota exceeded" |} st).
Proof.
  intros Hd Hb HU HL HLfit Hrem.
  rewrite !(check_past_gates _ _ _ _ Hd Hb), HU, HL. split.
  - intros Hmax. apply quota_decision_ok; [|done|lia|].
    + by replace (U + (L - U)) with L by lia.
    + destruct (field (head (config st)) gas_station_config.max_gas_per_transaction)
        as [m|] eqn:Hm; [|done].
      simpl. specialize (Hmax m eq_refl). by destruct (Z.ltb_spec m (L - U)); [lia|].
  - intros Hnext. apply quota_decision_exceeded; [|done|lia].
    by replace (U + (L - U + 1)) with (L + 1) by lia.
Qed.

(** A user who has used 4950000000 of the seeded 5000000000: 50000000 is
    approved, 50000001 is refused. *)
Lemma C6_witness :
  let st := {| config := config seeded_db; whitelist := ∅; blocked_users := ∅;
               quotas := {[ ("0xA", 20417) := quota_row 4950000000 None 12 ]};
               usage := []; markets := ∅ |} in
  check_user_gas_quota day1 "0xA" (5000000000 - 4950000000) st =
    Returned {| quota_check.has_quota := true;
                quota_check.gas_used_today := Some 4950000000;
                quota_check.remaining_quota := Some (5000000000 - 4950000000);
                quota_check.daily_limit := Some 5000000000;
                quota_check.reason := "OK" |} st
  ∧ check_user_gas_quota day1 "0xA" (5000000000 - 4950000000 + 1) st =
    Returned {| quota_check.has_quota := false;
                quota_check.gas_used_today := Some 4950000000;
                quota_check.remaining_quota := Some (5000000000 - 4950000000);
                quota_check.daily_limit := Some 5000000000;
                quota_check.reason := "Daily quota exceeded" |} st.
Proof.
  intros st.
  destruct (C6_daily_quota_boundary day1 "0xA" st 4950000000 5000000000
              eq_refl eq_refl eq_refl eq_refl eq_refl eq_refl) as [Happrove Hrefuse].
  split.
  - apply Happrove. intros m Hm. vm_compute in Hm. injection Hm as <-. lia.
  - apply Hrefuse. reflexivity.
Defined.

(** C7.  For every user state past the kill switch and the block list with
    headroom for the estimate under the daily limit, an estimate above
    [max_gas_per_transaction] is refused with
    ['Gas per transaction limit exceeded']. *)
Theorem C7_per_transaction_limit s u st g U L m :
  station_disabled (head (config st)) = false →
  user_blocked s u st = false →
  used_today s u st = Some U →
  effective_daily_limit s u st = Some L →
  field (head (config st)) gas_station_config.max_gas_per_transaction = Some m →
  in_bigint g = true → in_bigint L = true →
  0 ≤ U → U + g ≤ L →
  m < g →
  check_user_gas_quota s u g st =
    Returned {| quota_check.has_quota := false;
                quota_check.gas_used_today := Some U;
                quota_check.remaining_quota := Some (L - U);
                quota_check.daily_limit := Some L;
                quota_check.reason := "Gas per transaction limit exceeded" |} st.
Proof.
  intros Hd Hb HU HL Hm Hg HLfit HU0 Hroom Hover.
  rewrite (check_past_gates _ _ _ _ Hd Hb), HU, HL.
  apply in_bigint_iff in Hg, HLfit.
  apply quota_decision_per_tx with m; try done; apply in_bigint_iff; lia.
Qed.

(** The seeded limits, nothing used, an estimate of
    [max_gas_per_transaction + 1]. *)
Lemma C7_witness :
  check_user_gas_quota day1 "0xA" (100000000 + 1) seeded_db =
    Returned {| quota_check.has_quota := false;
                quota_check.gas_used_today := Some 0;
                quota_check.remaining_quota := Some (5000000000 - 0);
                quota_check.daily_limit := Some 5000000000;
                quota_check.reason := "Gas per transaction limit exceeded" |} seeded_db.
Proof.
  apply (C7_per_transaction_limit day1 "0xA" seeded_db (100000000 + 1)
           0 5000000000 100000000); try reflexivity; lia.
Defined.

(** The function as declared agrees with the function at values. *)
Lemma check_user_gas_quota_nullable_at_values s u g :
  check_user_gas_quota_nullable s (Some u) (Some g) = check_user_gas_quota s u g.
Proof. reflexivity. Qed.

Lemma read_only_quota_decision_nullable v_config p used limit :
  read_only (quota_decision_nullable v_config p used limit).
Proof. unfold quota_decision_nullable, int8pl. auto 10 with frame. Qed.

Lemma read_only_check_nullable s pu pg : read_only (check_user_gas_quota_nullable s pu pg).
Proof.
  unfold check_user_gas_quota_nullable, select_config_limit_1.
  apply read_only_bind; [auto with frame|]. intros v_config.
  apply read_only_if; [auto with frame|].
  apply read_only_bind; [auto with frame|]. intros v_is_blocked.
  apply read_only_if; [auto with frame|].
  assert (read_only (select_quota_today_for s pu)) as Hq.
  { destruct pu; unfold select_quota_today_for, select_quota_today; auto with frame. }
  assert (read_only (select_whitelist_into_for pu)) as Hw.
  { destruct pu; unfold select_whitelist_into_for, select_whitelist_into;
      auto with frame. }
  assert (∀ v_custom_limit, read_only (
    v_quota ← select_quota_today_for s pu;
    let '(gas_used_today, daily_limit) :=
      match v_quota with
      | None =>
          (Some 0, Sql.coalesce
             [v_custom_limit;
              field v_config gas_station_config.default_daily_limit_per_user])
      | Some q =>
          (user_daily_quotas.gas_used_today q,
           Sql.coalesce
             [user_daily_quotas.daily_limit q; v_custom_limit;
              field v_config gas_station_config.default_daily_limit_per_user])
      end in
    quota_decision_nullable v_config pg gas_used_today daily_limit)) as Hrest.
  { intros c. apply read_only_bind; [exact Hq|].
    intros [q|]; apply read_only_quota_decision_nullable. }
  apply read_only_if; [|apply Hrest].
  apply read_only_bind; [exact Hw|]. intros [w c].
  apply read_only_if; [auto with frame|apply Hrest].
Qed.

(** ** The route handler *)

(** The call through the REST interface always comes back, with the
    database it was given. *)
Lemma rpc_check_user_gas_quota_returns o u name value st :
  ∃ data, rpc_check_user_gas_quota o u name value st = Returned data st.
Proof.
  unfold rpc_check_user_gas_quota.
  destruct (rpc_error o || negb _); [by exists None|].
  unfold attempt, mbind, plpgsql_bind.
  pose proof (read_only_check_nullable (sql_session o) (Some u) (Some value) st) as Hro.
  destruct (check_user_gas_quota_nullable _ _ _ st) as [r st'|e]; [|by exists None].
  subst st'. by exists (Some [r]).
Qed.

Lemma checkUserGasQuota_frame o u g b :
  ledger (checkUserGasQuota o u g b).2 = ledger b
  ∧ catalogue (checkUserGasQuota o u g b).2 = catalogue b.
Proof.
  unfold checkUserGasQuota.
  destruct (rpc_check_user_gas_quota_returns o u "p_required_amount" g (ledger b))
    as [data ->].
  by destruct data.
Qed.

Lemma getFeePayerAccount_frame o b :
  ledger (getFeePayerAccount o b).2 = ledger b
  ∧ catalogue (getFeePayerAccount o b).2 = catalogue b.
Proof.
  unfold getFeePayerAccount. destruct (feePayerAccount b); [done|].
  destruct (nonempty _); [|done]. by destruct (Ed25519PrivateKey o _).
Qed.

Lemma buildSponsoredTransaction_frame o sender path arguments b :
  ledger (buildSponsoredTransaction o sender path arguments b).2 = ledger b
  ∧ catalogue (buildSponsoredTransaction o sender path arguments b).2 = catalogue b.
Proof.
  unfold buildSponsoredTransaction. destruct (build_simple o _); [|done].
  pose proof (getFeePayerAccount_frame o b) as Hfee.
  by destruct (getFeePayerAccount o b) as [[account|] b'].
Qed.

Lemma POST_frame o request b :
  ledger (POST o request b).2 = ledger b
  ∧ catalogue (POST o request b).2 = catalogue b.
Proof.
  unfold POST. destruct request as [body|]; [|done].
  destruct (_ || _); [done|].
  destruct (select_market o _ b) as [market|]; [|done].
  destruct (negb (bool_decide (markets.is_gas_sponsored market = Some true))); [done|].
  destruct (negb (bool_decide (markets.status market = Some "active"))); [done|].
  pose proof (checkUserGasQuota_frame o (default "" (userAddress body)) 100000 b)
    as Hcheck.
  destruct (checkUserGasQuota o _ 100000 b) as [quotaCheck b1]. simpl in Hcheck.
  destruct (negb (allowed quotaCheck)); [done|].
  destruct (getMarketFunctionPath _ _ _ _ _ (versions b1)) as [[path|e] σ]; [|done].
  destruct (amount body ≫= BigInt) as [octas|]; [|done].
  match goal with
  | |- context [buildSponsoredTransaction ?o ?u ?f ?args ?b2] =>
      pose proof (buildSponsoredTransaction_frame o u f args b2) as Hbuild;
      destruct (buildSponsoredTransaction o u f args b2) as [[built|] b3]
  end; simpl in *; destruct Hbuild as [Hl Hc]; by rewrite Hl, Hc.
Qed.

(** C9.  Phase 1 changes nothing in the stored state.  The route handler
    [POST], with the quota check [checkUserGasQuota] and the assembly
    [buildSponsoredTransaction] it calls, leaves the configuration, the
    quota rows, the whitelist, the block list and the usage log (and the
    rows of [markets]) as they were, for every request, every state of the
    server and whatever it finds outside; and [check_user_gas_quota] itself,
    at values and at arguments that may be NULL, leaves the database it was
    given, whether it returns a row or raises. *)
Theorem C9_phase_one_leaves_the_ledger o request b s u g pu pg st :
  ledger (POST o request b).2 = ledger b
  ∧ catalogue (POST o request b).2 = catalogue b
  ∧ ledger (checkUserGasQuota o u g b).2 = ledger b
  ∧ db_after (check_user_gas_quota_nullable s pu pg) st = st
  ∧ db_after (check_user_gas_quota s u g) st = st
  ∧ ∀ r st', check_user_gas_quota s u g st = Returned r st' → st' = st.
Proof.
  split; [apply POST_frame|]. split; [apply POST_frame|].
  split; [apply checkUserGasQuota_frame|].
  pose proof (read_only_check_nullable s pu pg st) as Hnull.
  pose proof (read_only_check s u g st) as Hro. unfold db_after.
  split; [by destruct (check_user_gas_quota_nullable s pu pg st)|].
  split; [by destruct (check_user_gas_quota s u g st)|].
  intros r st' Hret. by rewrite Hret in Hro.
Qed.

(** ** Symbolic execution of [record_gas_usage] *)

Lemma bind_returns {A B} (m : plpgsql A) (k : A → plpgsql B) st b st2 :
  (m ≫= k) st = Returned b st2 →
  ∃ a st1, m st = Returned a st1 ∧ k a st1 = Returned b st2.
Proof.
  unfold mbind, plpgsql_bind. destruct (m st) as [a st1|e]; [|done]. eauto.
Qed.

Lemma arith_returns fit op a b st r st1 :
  (∀ z st z' st', fit z st = Returned z' st' → z' = z ∧ st' = st) →
  arith fit op a b st = Returned r st1 →
  st1 = st ∧ r = match a, b with Some x, Some y => Some (op x y) | _, _ => None end.
Proof.
  intros Hfit. unfold arith. destruct a as [x|], b as [y|]; run_plpgsql;
    try (intros [= <- <-]; done).
  destruct (fit (op x y) st) as [z st'|e] eqn:Hz; [|done].
  apply Hfit in Hz as [-> ->]. by intros [= <- <-].
Qed.

Lemma to_bigint_returns z st z' st' :
  to_bigint z st = Returned z' st' → z' = z ∧ st' = st.
Proof. unfold to_bigint. destruct (in_bigint z); [|done]. by intros [= <- <-]. Qed.

Lemma to_int_returns z st z' st' :
  to_int z st = Returned z' st' → z' = z ∧ st' = st.
Proof. unfold to_int. destruct (in_int z); [|done]. by intros [= <- <-]. Qed.

(** The upsert, when it returns, has added the fee and one transaction to
    the counters the row had, or to zero when there was no row. *)
Lemma upsert_returns s u f st st1 :
  upsert_user_daily_quota s u (Some f) st = Returned tt st1 →
  ∃ q,
    quotas st1 = <[(u, CURRENT_DATE s) := q]> (quotas st)
    ∧ usage st1 = usage st
    ∧ user_daily_quotas.gas_used_today q =
        plus3 (gas_used_on (CURRENT_DATE s) u st) (Some f)
    ∧ user_daily_quotas.transactions_today q =
        plus3 (transactions_on (CURRENT_DATE s) u st) (Some 1).
Proof.
  unfold upsert_user_daily_quota, gas_used_on, transactions_on.
  intros H. apply bind_returns in H as (existing & st0 & Hq & H).
  unfold query in Hq. injection Hq as <- <-.
  destruct (quotas st !! (u, CURRENT_DATE s)) as [q|].
  - apply bind_returns in H as (gas & st' & Hgas & H).
    apply (arith_returns _ _ _ _ _ _ _ to_bigint_returns) in Hgas as [-> ->].
    apply bind_returns in H as (txs & st' & Htxs & H).
    apply (arith_returns _ _ _ _ _ _ _ to_int_returns) in Htxs as [-> ->].
    unfold set_quota, dml in H. injection H as <-. eexists. simpl.
    repeat split.
  - unfold set_quota, dml in H. injection H as <-. eexists. simpl.
    repeat split.
Qed.

Lemma insert_usage_returns r st st1 :
  insert_gas_sponsorship_usage r st = Returned tt st1 →
  quotas st1 = quotas st ∧ usage st1 = usage st ++ [r].
Proof.
  unfold insert_gas_sponsorship_usage. intros H.
  apply bind_returns in H as (taken & st0 & Ht & H).
  unfold query in Ht. injection Ht as <- <-.
  destruct (bool_decide _); [done|].
  apply bind_returns in H as (known & st0 & Hk & H).
  unfold query in Hk. injection Hk as <- <-.
  destruct (match gas_sponsorship_usage.market_id r with
            | Some m => bool_decide (m ∈ markets st) | None => true end); [|done].
  unfold dml in H. by injection H as <-.
Qed.

(** A hash that is already in the log is refused before anything is
    written. *)
Lemma insert_usage_duplicate r st :
  gas_sponsorship_usage.tx_hash r ∈ gas_sponsorship_usage.tx_hash <$> usage st →
  insert_gas_sponsorship_usage r st = Raised unique_violation.
Proof.
  intros Hin. unfold insert_gas_sponsorship_usage. run_plpgsql.
  by rewrite (bool_decide_eq_true_2 _ Hin).
Qed.

(** A call that returns has put its hash in the usage log and has added its
    fee and one transaction to the caller's counters for the day. *)
Lemma record_gas_usage_returns s a st st1 :
  record_gas_usage s a st = Returned tt st1 →
  ∃ q,
    quotas st1 = <[(p_user_address a, CURRENT_DATE s) := q]> (quotas st)
    ∧ user_daily_quotas.gas_used_today q =
        plus3 (gas_used_on (CURRENT_DATE s) (p_user_address a) st) (Some (fee (s, a)))
    ∧ user_daily_quotas.transactions_today q =
        plus3 (transactions_on (CURRENT_DATE s) (p_user_address a) st) (Some 1)
    ∧ p_tx_hash a ∈ gas_sponsorship_usage.tx_hash <$> usage st1.
Proof.
  unfold record_gas_usage. intros H.
  apply bind_returns in H as (v_total_gas_fee & st0 & Hfee & H).
  apply to_bigint_returns in Hfee as [-> ->].
  apply bind_returns in H as ([] & st0 & Hins & H).
  apply insert_usage_returns in Hins as [Hq0 Hu0].
  apply upsert_returns in H as (q & Hq & Hu & Hgas & Htxs).
  exists q. unfold gas_used_on, transactions_on, fee in *. simpl.
  rewrite Hq0 in Hq, Hgas, Htxs. repeat split; try done.
  rewrite Hu, Hu0, fmap_app, elem_of_app. right. simpl.
  by apply list_elem_of_singleton.
Qed.

(** One returned call moves the counters of [(u, d)] exactly when it is a
    call of [u] on [d]. *)
Lemma record_gas_usage_counters s a st st1 d u :
  record_gas_usage s a st = Returned tt st1 →
  gas_used_on d u st1 =
    (if concerns d u (s, a)
     then plus3 (gas_used_on d u st) (Some (fee (s, a)))
     else gas_used_on d u st)
  ∧ transactions_on d u st1 =
    (if concerns d u (s, a)
     then plus3 (transactions_on d u st) (Some 1)
     else transactions_on d u st).
Proof.
  intros H. apply record_gas_usage_returns in H as (q & Hq & Hgas & Htxs & _).
  unfold concerns. simpl.
  destruct (decide (p_user_address a = u)) as [<-|Hu];
    [destruct (decide (CURRENT_DATE s = d)) as [<-|Hd]|].
  - rewrite !bool_decide_eq_true_2 by done. simpl.
    rewrite <- Hgas, <- Htxs. unfold gas_used_on, transactions_on.
    by rewrite Hq, lookup_insert_eq.
  - rewrite (bool_decide_eq_false_2 _ Hd), andb_false_r.
    unfold gas_used_on, transactions_on.
    rewrite Hq, lookup_insert_ne; [done|congruence].
  - rewrite (bool_decide_eq_false_2 _ Hu). simpl.
    unfold gas_used_on, transactions_on.
    rewrite Hq, lookup_insert_ne; [done|congruence].
Qed.

Lemma record_all_counters calls : ∀ st st1 d u g0 n0,
  record_all calls st = Returned tt st1 →
  gas_used_on d u st = Some g0 →
  transactions_on d u st = Some n0 →
  gas_used_on d u st1 = Some (g0 + fees_of d u calls)
  ∧ transactions_on d u st1 = Some (n0 + calls_of d u calls).
Proof.
  induction calls as [|[s a] calls IH]; intros st st1 d u g0 n0 Hrun Hg Hn.
  - injection Hrun as <-. simpl. by rewrite !Z.add_0_r.
  - simpl in Hrun. apply bind_returns in Hrun as ([] & st0 & Hone & Hrest).
    destruct (record_gas_usage_counters _ _ _ _ d u Hone) as [Hg1 Hn1].
    rewrite Hg in Hg1. rewrite Hn in Hn1. simpl.
    destruct (concerns d u (s, a)); simpl in Hg1, Hn1.
    + destruct (IH _ _ _ _ _ _ Hrest Hg1 Hn1) as [-> ->].
      split; f_equal; lia.
    + destruct (IH _ _ _ _ _ _ Hrest Hg1 Hn1) as [-> ->].
      split; f_equal; lia.
Qed.

Lemma fees_of_Permutation d u calls calls' :
  calls ≡ₚ calls' → fees_of d u calls = fees_of d u calls'.
Proof. induction 1; simpl; lia. Qed.

Lemma calls_of_Permutation d u calls calls' :
  calls ≡ₚ calls' → calls_of d u calls = calls_of d u calls'.
Proof. induction 1; simpl; lia. Qed.

(** C4.  Once a recording with some transaction hash has gone through, any
    further recording with that hash is rejected (with [unique_violation] as
    soon as its fee is a BIGINT at all), and the database it leaves is the
    one it found: no user's [gas_used_today] or [transactions_today]
    moves. *)
Theorem C4_duplicate_hash_is_rejected s a st st1 s' a' :
  record_gas_usage s a st = Returned tt st1 →
  p_tx_hash a' = p_tx_hash a →
  (∃ e, record_gas_usage s' a' st1 = Raised e)
  ∧ (in_bigint (p_gas_used a' * p_gas_unit_price a') = true →
     record_gas_usage s' a' st1 = Raised unique_violation)
  ∧ db_after (record_gas_usage s' a') st1 = st1
  ∧ ∀ d u,
      gas_used_on d u (db_after (record_gas_usage s' a') st1) = gas_used_on d u st1
      ∧ transactions_on d u (db_after (record_gas_usage s' a') st1)
        = transactions_on d u st1.
Proof.
  intros Hfirst Hhash.
  apply record_gas_usage_returns in Hfirst as (_ & _ & _ & _ & Hlogged).
  rewrite <- Hhash in Hlogged.
  assert (record_gas_usage s' a' st1 =
            if in_bigint (p_gas_used a' * p_gas_unit_price a')
            then Raised unique_violation
            else Raised numeric_value_out_of_range) as Hsecond.
  { unfold record_gas_usage, to_bigint.
    destruct (in_bigint (p_gas_used a' * p_gas_unit_price a')); [|done].
    unfold mbind at 1, plpgsql_bind at 1, mret, plpgsql_ret.
    unfold mbind, plpgsql_bind. by rewrite insert_usage_duplicate. }
  assert (db_after (record_gas_usage s' a') st1 = st1) as Hsame.
  { unfold db_after. rewrite Hsecond. by destruct (in_bigint _). }
  split; [|split; [|split]].
  - rewrite Hsecond. destruct (in_bigint _); eauto.
  - intros Hfit. by rewrite Hsecond, Hfit.
  - done.
  - intros d u. by rewrite Hsame.
Qed.

(** The same bet submitted twice. *)
Lemma C4_witness :
  let once := db_after (record_gas_usage day1 (bet "0xA" "0xh1" 700 100)) seeded_db in
  gas_used_on 20417 "0xA" once = Some 70000
  ∧ transactions_on 20417 "0xA" once = Some 1
  ∧ record_gas_usage day1 (bet "0xA" "0xh1" 700 100) once = Raised unique_violation
  ∧ db_after (record_gas_usage day1 (bet "0xA" "0xh1" 700 100)) once = once.
Proof.
  intros once.
  assert (record_gas_usage day1 (bet "0xA" "0xh1" 700 100) seeded_db =
            Returned tt once) as Hfirst by (vm_compute; reflexivity).
  destruct (C4_duplicate_hash_is_rejected day1 (bet "0xA" "0xh1" 700 100)
              seeded_db once day1 (bet "0xA" "0xh1" 700 100) Hfirst eq_refl)
    as (_ & Hdup & Hsame & _).
  split; [vm_compute; reflexivity|].
  split; [vm_compute; reflexivity|].
  split; [apply Hdup; reflexivity | exact Hsame].
Defined.

(** C8.  From a day on which user [u] has no quota row yet, after any
    sequence of successful recordings the user's [gas_used_today] is the sum
    of the fees of the user's recordings of that day and
    [transactions_today] is their number; calls of other users or other days
    may be interleaved, and the same calls made in another order, if they all
    succeed too, leave the same two counters. *)
Theorem C8_counters_are_sums d u calls calls' st st1 st2 :
  quotas st !! (u, d) = None →
  record_all calls st = Returned tt st1 →
  calls ≡ₚ calls' →
  record_all calls' st = Returned tt st2 →
  gas_used_on d u st1 = Some (fees_of d u calls)
  ∧ transactions_on d u st1 = Some (calls_of d u calls)
  ∧ gas_used_on d u st2 = gas_used_on d u st1
  ∧ transactions_on d u st2 = transactions_on d u st1.
Proof.
  intros Hnew Hrun Hperm Hrun'.
  assert (gas_used_on d u st = Some 0) as Hg by (unfold gas_used_on; by rewrite Hnew).
  assert (transactions_on d u st = Some 0) as Hn
    by (unfold transactions_on; by rewrite Hnew).
  destruct (record_all_counters _ _ _ _ _ _ _ Hrun Hg Hn) as [Hg1 Hn1].
  destruct (record_all_counters _ _ _ _ _ _ _ Hrun' Hg Hn) as [Hg2 Hn2].
  rewrite Hg1, Hn1, Hg2, Hn2.
  rewrite (fees_of_Permutation d u _ _ Hperm), (calls_of_Permutation d u _ _ Hperm).
  repeat split; f_equal; lia.
Qed.

(** Two users' bets on one day, the first two submitted in either order. *)
Lemma C8_witness :
  let a1 := (day1, bet "0xA" "0xh1" 700 100) in
  let b1 := (day1, bet "0xB" "0xh2" 5 100) in
  let a2 := (day1, bet "0xA" "0xh3" 300 100) in
  let st1 := db_after (record_all [a1; b1; a2]) seeded_db in
  let st2 := db_after (record_all [b1; a1; a2]) seeded_db in
  gas_used_on 20417 "0xA" st1 = Some (700 * 100 + 300 * 100)
  ∧ transactions_on 20417 "0xA" st1 = Some 2
  ∧ gas_used_on 20417 "0xA" st2 = gas_used_on 20417 "0xA" st1
  ∧ transactions_on 20417 "0xA" st2 = transactions_on 20417 "0xA" st1.
Proof.
  intros a1 b1 a2 st1 st2.
  assert (record_all [a1; b1; a2] seeded_db = Returned tt st1) as Hrun
    by (vm_compute; reflexivity).
  assert (record_all [b1; a1; a2] seeded_db = Returned tt st2) as Hrun'
    by (vm_compute; reflexivity).
  exact (C8_counters_are_sums 20417 "0xA" [a1; b1; a2] [b1; a1; a2]
           seeded_db st1 st2 eq_refl Hrun (perm_swap b1 a1 [a2]) Hrun').
Defined.

(** ** Transaction counts are not read *)

Lemma head_without_tx_counts st :
  head (config (without_tx_counts st)) = without_tx_limit <$> head (config st).
Proof. simpl. by destruct (config st). Qed.

Lemma station_disabled_without_tx_counts st :
  station_disabled (head (config (without_tx_counts st)))
  = station_disabled (head (config st)).
Proof. rewrite head_without_tx_counts. by destruct (head (config st)). Qed.

Lemma used_today_without_tx_counts s u st :
  used_today s u (without_tx_counts st) = used_today s u st.
Proof.
  unfold used_today, gas_used_on. simpl. rewrite lookup_fmap.
  by destruct (quotas st !! (u, CURRENT_DATE s)).
Qed.

Lemma effective_daily_limit_without_tx_counts s u st :
  effective_daily_limit s u (without_tx_counts st) = effective_daily_limit s u st.
Proof.
  unfold effective_daily_limit, quota_row_limit, whitelist_mode,
    whitelist_custom_limit, global_default_limit.
  rewrite head_without_tx_counts. simpl. rewrite lookup_fmap.
  destruct (quotas st !! (u, CURRENT_DATE s)); simpl;
    by destruct (head (config st)).
Qed.

(** The value of the quota checks does not depend on the database they run
    in, and on the configuration only through [max_gas_per_transaction]. *)
Lemma quota_decision_result v1 v2 g used limit st1 st2 :
  field v1 gas_station_config.max_gas_per_transaction
  = field v2 gas_station_config.max_gas_per_transaction →
  result (quota_decision v1 g used limit st1)
  = result (quota_decision v2 g used limit st2).
Proof.
  intros Hmax. unfold_decision. rewrite Hmax.
  generalize (field v2 gas_station_config.max_gas_per_transaction). intros mx.
  destruct used as [U|], limit as [L|]; simpl;
    repeat (match goal with
            | |- context [in_bigint ?z] => destruct (in_bigint z)
            | |- context [?x <? ?y] => destruct (x <? y)
            | |- context [Sql.holds ?c] => destruct (Sql.holds c)
            | |- context [match mx with _ => _ end] => destruct mx
            end; simpl); reflexivity.
Qed.

Lemma check_without_tx_counts s u g st :
  result (check_user_gas_quota s u g (without_tx_counts st))
  = result (check_user_gas_quota s u g st).
Proof.
  pose proof (station_disabled_without_tx_counts st) as Hd'.
  destruct (station_disabled (head (config st))) eqn:Hd.
  { by rewrite (check_station_disabled _ _ _ _ Hd), (check_station_disabled _ _ _ _ Hd'). }
  assert (user_blocked s u (without_tx_counts st) = user_blocked s u st) as Hb'
    by done.
  destruct (user_blocked s u st) eqn:Hb.
  { by rewrite (check_user_blocked _ _ _ _ Hd Hb), (check_user_blocked _ _ _ _ Hd' Hb'). }
  rewrite (check_past_gates _ _ _ _ Hd Hb), (check_past_gates _ _ _ _ Hd' Hb').
  rewrite used_today_without_tx_counts, effective_daily_limit_without_tx_counts.
  apply quota_decision_result. rewrite head_without_tx_counts.
  by destruct (head (config st)).
Qed.

Lemma check_reason s u g st r :
  result (check_user_gas_quota s u g st) = inr r → quota_check.reason r ∈ reasons.
Proof.
  unfold reasons.
  destruct (station_disabled (head (config st))) eqn:Hd.
  { rewrite (check_station_disabled _ _ _ _ Hd). intros [= <-]. set_solver. }
  destruct (user_blocked s u st) eqn:Hb.
  { rewrite (check_user_blocked _ _ _ _ Hd Hb). intros [= <-]. set_solver. }
  rewrite (check_past_gates _ _ _ _ Hd Hb).
  destruct (quota_decision _ _ _ _ st) as [r' st'|e] eqn:Hq; [|done].
  intros [= <-]. apply quota_decision_returns in Hq as (_ & _ & _ & _ & Hin).
  rewrite !elem_of_cons, elem_of_nil in Hin. rewrite !elem_of_cons.
  destruct Hin as [Hin|[Hin|[Hin|[]]]]; rewrite Hin; auto 10.
Qed.

(** C10.  The transaction counters and the transaction-count limits are
    never read by the evaluation: on two databases that differ only in
    [transactions_today], [max_transactions_per_day] and
    [max_transactions_per_user_per_day], [check_user_gas_quota] gives the
    same result, and the reason of any row it returns is one of its six
    texts, none of which is about a transaction count. *)
Theorem C10_transaction_count_not_enforced s u g st1 st2 :
  same_but_tx_counts st1 st2 →
  result (check_user_gas_quota s u g st1) = result (check_user_gas_quota s u g st2)
  ∧ ∀ r, result (check_user_gas_quota s u g st1) = inr r →
         quota_check.reason r ∈ reasons.
Proof.
  intros Hsame. split; [|apply check_reason].
  rewrite <- (check_without_tx_counts s u g st1), <- (check_without_tx_counts s u g st2).
  unfold same_but_tx_counts in Hsame. by rewrite Hsame.
Qed.

(** Twelve transactions under a limit of 50, against 5000 transactions
    under a limit of 1: both approved alike. *)
Lemma C10_witness :
  let st1 := {| config := [with_tx_limit (Some 50) (seeded_config 1764000000)];
                whitelist := ∅; blocked_users := ∅;
                quotas := {[ ("0xA", 20417) := quota_row 1200000 None 12 ]};
                usage := []; markets := ∅ |} in
  let st2 := {| config := [with_tx_limit (Some 1) (seeded_config 1764000000)];
                whitelist := ∅; blocked_users := ∅;
                quotas := {[ ("0xA", 20417) := quota_row 1200000 None 5000 ]};
                usage := []; markets := ∅ |} in
  result (check_user_gas_quota day1 "0xA" 100000 st1)
  = result (check_user_gas_quota day1 "0xA" 100000 st2)
  ∧ result (check_user_gas_quota day1 "0xA" 100000 st2) =
      inr {| quota_check.has_quota := true;
             quota_check.gas_used_today := Some 1200000;
             quota_check.remaining_quota := Some 4998800000;
             quota_check.daily_limit := Some 5000000000;
             quota_check.reason := "OK" |}.
Proof.
  intros st1 st2. split; [|vm_compute; reflexivity].
  apply (C10_transaction_count_not_enforced day1 "0xA" 100000 st1 st2).
  vm_compute. reflexivity.
Defined.

(** * Further properties *)

(** ** The evaluation *)

(** The value of an evaluation is fixed by four readings of the database. *)
Lemma check_result_determined s u g st st' :
  head (config st) = head (config st') →
  user_blocked s u st = user_blocked s u st' →
  used_today s u st = used_today s u st' →
  effective_daily_limit s u st = effective_daily_limit s u st' →
  result (check_user_gas_quota s u g st) = result (check_user_gas_quota s u g st').
Proof.
  intros Hc Hb Hu Hl.
  destruct (station_disabled (head (config st))) eqn:Hd.
  { rewrite (check_station_disabled _ _ _ _ Hd). rewrite Hc in Hd.
    by rewrite (check_station_disabled _ _ _ _ Hd). }
  destruct (user_blocked s u st) eqn:Hbl.
  { rewrite (check_user_blocked _ _ _ _ Hd Hbl). rewrite Hc in Hd.
    symmetry in Hb. by rewrite (check_user_blocked _ _ _ _ Hd Hb). }
  rewrite (check_past_gates _ _ _ _ Hd Hbl). rewrite Hc in Hd. symmetry in Hb.
  rewrite (check_past_gates _ _ _ _ Hd Hb), <- Hu, <- Hl.
  apply quota_decision_result. by rewrite Hc.
Qed.

Lemma station_disabled_iff c :
  station_disabled (Some c) = true ↔
  gas_station_config.enabled c = Some false
  ∨ gas_station_config.emergency_stop c = Some true.
Proof.
  unfold station_disabled. simpl.
  destruct (gas_station_config.enabled c) as [[]|],
    (gas_station_config.emergency_stop c) as [[]|]; simpl;
    (split; [intros H; try discriminate H; auto
            | intros [H|H]; try discriminate H; reflexivity]).
Qed.

(** What an approval has checked. *)
Lemma quota_decision_approved v_config g used limit st r st' :
  quota_decision v_config g used limit st = Returned r st' →
  quota_check.has_quota r = true →
  Sql.holds (Sql.gt3 (plus3 used (Some g)) limit) = false
  ∧ Sql.holds (Sql.gt3 (Some g)
       (field v_config gas_station_config.max_gas_per_transaction)) = false.
Proof.
  unfold_decision.
  generalize (field v_config gas_station_config.max_gas_per_transaction).
  intros mx Hret Hok.
  destruct used as [U|], limit as [L|]; simpl in *;
    repeat (match type of Hret with
            | context [in_bigint ?z] => destruct (in_bigint z)
            | context [?x <? ?y] => destruct (x <? y)
            | context [match mx with _ => _ end] => destruct mx
            end; simpl in *);
    simplify_eq; simpl in *; done.
Qed.

(** X1.  With the station enabled, a user whose block-list entry has no
    end ([blocked_until] NULL) or ends after [now()] is refused with
    ['User blocked'], whatever the amount, the whitelist and the quota
    state. *)
Theorem X1_block_in_force_refuses s u g st b :
  station_disabled (head (config st)) = false →
  blocked_users st !! u = Some b →
  (gas_station_blocked_users.blocked_until b = None
   ∨ ∃ t, gas_station_blocked_users.blocked_until b = Some t ∧ now s < t) →
  check_user_gas_quota s u g st = Returned (refusal "User blocked") st.
Proof.
  intros Hd Hb Hin. apply check_user_blocked; [done|].
  unfold user_blocked. rewrite Hb.
  destruct Hin as [-> | (t & -> & Ht)]; [done|]. simpl.
  by destruct (Z.ltb_spec (now s) t); [|lia].
Qed.

Lemma X1_witness :
  check_user_gas_quota day1 "0xA" 100000 (banned_db (Some 1764115200)) =
    Returned (refusal "User blocked") (banned_db (Some 1764115200))
  ∧ check_user_gas_quota day1 "0xA" 100000 (banned_db None) =
    Returned (refusal "User blocked") (banned_db None).
Proof.
  split.
  - apply (X1_block_in_force_refuses day1 "0xA" 100000
             (banned_db (Some 1764115200)) (ban (Some 1764115200)));
      [reflexivity | reflexivity | right; exists 1764115200; split; [reflexivity|]].
    vm_compute. reflexivity.
  - apply (X1_block_in_force_refuses day1 "0xA" 100000 (banned_db None) (ban None));
      [reflexivity | reflexivity | left; reflexivity].
Defined.

(** X2.  A block that has run out ([blocked_until] not after [now()]) no
    longer counts: the evaluation gives what it gives on the database
    without the user's block-list entry. *)
Theorem X2_expired_block_is_ignored s u g st b t :
  blocked_users st !! u = Some b →
  gas_station_blocked_users.blocked_until b = Some t →
  t ≤ now s →
  result (check_user_gas_quota s u g st)
  = result (check_user_gas_quota s u g (unblocked u st)).
Proof.
  intros Hb Hu Ht. apply check_result_determined; try reflexivity.
  unfold user_blocked. simpl. rewrite Hb, Hu, lookup_delete_eq. simpl.
  by destruct (Z.ltb_spec (now s) t); [lia|].
Qed.

Lemma X2_witness :
  result (check_user_gas_quota day1 "0xA" 100000 (banned_db (Some 1764028800)))
  = inr {| quota_check.has_quota := true;
           quota_check.gas_used_today := Some 0;
           quota_check.remaining_quota := Some 5000000000;
           quota_check.daily_limit := Some 5000000000;
           quota_check.reason := "OK" |}.
Proof.
  rewrite (X2_expired_block_is_ignored day1 "0xA" 100000
             (banned_db (Some 1764028800)) (ban (Some 1764028800)) 1764028800
             eq_refl eq_refl).
  - vm_compute. reflexivity.
  - vm_compute. discriminate.
Defined.

(** The function as declared, past its two gates. *)
Lemma check_nullable_station_disabled s pu pg st :
  station_disabled (head (config st)) = true →
  check_user_gas_quota_nullable s pu pg st
  = Returned (refusal "Gas station disabled") st.
Proof.
  intros Hd. unfold check_user_gas_quota_nullable, select_config_limit_1.
  run_plpgsql. by rewrite Hd.
Qed.

Lemma check_nullable_user_blocked s pu pg st :
  station_disabled (head (config st)) = false →
  user_blocked_for s pu st = true →
  check_user_gas_quota_nullable s pu pg st = Returned (refusal "User blocked") st.
Proof.
  intros Hd Hb. unfold check_user_gas_quota_nullable, select_config_limit_1.
  run_plpgsql. by rewrite Hd, Hb.
Qed.

Lemma check_nullable_past_gates s pu pg st :
  station_disabled (head (config st)) = false →
  user_blocked_for s pu st = false →
  check_user_gas_quota_nullable s pu pg st =
    quota_decision_nullable (head (config st)) pg (used_today_for s pu st)
      (effective_daily_limit_for s pu st) st.
Proof.
  intros Hd Hb.
  unfold check_user_gas_quota_nullable, select_config_limit_1.
  run_plpgsql. rewrite Hd, Hb.
  destruct pu as [u|]; simpl.
  - unfold select_whitelist_into, select_quota_today. run_plpgsql.
    unfold used_today, gas_used_on, effective_daily_limit, quota_row_limit,
      whitelist_mode, whitelist_custom_limit, global_default_limit,
      active_whitelist_rows.
    destruct (Sql.holds (field (head (config st)) gas_station_config.whitelist_enabled));
      destruct (whitelist st !! u) as [w|];
      try destruct (Sql.holds (Sql.eqb3 (gas_station_whitelist.is_active w) (Some true)));
      simpl;
      destruct (quotas st !! (u, CURRENT_DATE s)) as [q|]; simpl;
      try destruct (user_daily_quotas.daily_limit q);
      try destruct (gas_station_whitelist.custom_daily_limit w);
      try reflexivity;
      by destruct (field (head (config st))
                     gas_station_config.default_daily_limit_per_user).
  - unfold global_default_limit.
    destruct (Sql.holds (field (head (config st)) gas_station_config.whitelist_enabled));
      simpl;
      by destruct (field (head (config st))
                     gas_station_config.default_daily_limit_per_user).
Qed.

Lemma quota_decision_nullable_approved v_config p used limit st r st' :
  quota_decision_nullable v_config p used limit st = Returned r st' →
  quota_check.has_quota r = true →
  Sql.holds (Sql.gt3 (plus3 used p) limit) = false
  ∧ Sql.holds (Sql.gt3 p
       (field v_config gas_station_config.max_gas_per_transaction)) = false.
Proof.
  unfold quota_decision_nullable, report, int8pl, int8mi, arith, to_bigint.
  run_plpgsql.
  generalize (field v_config gas_station_config.max_gas_per_transaction).
  intros mx Hret Hok.
  destruct used as [U|], p as [g|], limit as [L|]; simpl in *;
    repeat (match type of Hret with
            | context [in_bigint ?z] => destruct (in_bigint z)
            | context [?x <? ?y] => destruct (x <? y)
            | context [match mx with _ => _ end] => destruct mx
            end; simpl in *);
    simplify_eq; simpl in *; done.
Qed.

Lemma nullable_approved_past_gates s pu pg st r st' :
  check_user_gas_quota_nullable s pu pg st = Returned r st' →
  quota_check.has_quota r = true →
  station_disabled (head (config st)) = false ∧ user_blocked_for s pu st = false.
Proof.
  intros Hret Hok.
  destruct (station_disabled (head (config st))) eqn:Hd.
  { rewrite (check_nullable_station_disabled _ _ _ _ Hd) in Hret. by simplify_eq. }
  destruct (user_blocked_for s pu st) eqn:Hb; [|done].
  rewrite (check_nullable_user_blocked _ _ _ _ Hd Hb) in Hret. by simplify_eq.
Qed.

(** What the quota checks return for a NULL estimate: both comparisons are
    NULL, so the row is an approval whenever the subtraction fits. *)
Lemma quota_decision_nullable_no_estimate v_config used limit st r st' :
  quota_decision_nullable v_config None used limit st = Returned r st' →
  quota_check.has_quota r = true ∧ quota_check.reason r = "OK".
Proof.
  unfold quota_decision_nullable, report, int8pl, int8mi, arith, to_bigint.
  run_plpgsql. intros Hret.
  destruct used as [U|], limit as [L|]; simpl in *;
    repeat (match type of Hret with
            | context [in_bigint ?z] => destruct (in_bigint z)
            end; simpl in *);
    simplify_eq; done.
Qed.

(** X3.  For an estimate that is a value, an approval is never beyond a
    limit that is set: if the row says [has_quota] then the gas used today
    plus the estimate is within the effective daily limit, whenever both
    are not NULL, and the estimate is within [max_gas_per_transaction],
    whenever that is not NULL; this for every address, NULL included.  A
    NULL estimate, which the function accepts, is compared with nothing:
    past the kill switch and the block list every row returned for it is an
    approval, whatever has been used. *)
Theorem X3_approved_within_limits s pu st :
  (∀ g r st',
     check_user_gas_quota_nullable s pu (Some g) st = Returned r st' →
     quota_check.has_quota r = true →
     (∀ U L, used_today_for s pu st = Some U →
             effective_daily_limit_for s pu st = Some L → U + g ≤ L)
     ∧ (∀ m, field (head (config st)) gas_station_config.max_gas_per_transaction
             = Some m → g ≤ m))
  ∧ (∀ r st',
       check_user_gas_quota_nullable s pu None st = Returned r st' →
       station_disabled (head (config st)) = false →
       user_blocked_for s pu st = false →
       quota_check.has_quota r = true ∧ quota_check.reason r = "OK").
Proof.
  split.
  - intros g r st' Hret Hok.
    destruct (nullable_approved_past_gates _ _ _ _ _ _ Hret Hok) as [Hd Hb].
    rewrite (check_nullable_past_gates _ _ _ _ Hd Hb) in Hret.
    destruct (quota_decision_nullable_approved _ _ _ _ _ _ _ Hret Hok) as [Hday Htx].
    split.
    + intros U L HU HL. rewrite HU, HL in Hday. simpl in Hday.
      by destruct (Z.ltb_spec L (U + g)).
    + intros m Hm. rewrite Hm in Htx. simpl in Htx.
      by destruct (Z.ltb_spec m g).
  - intros r st' Hret Hd Hb.
    rewrite (check_nullable_past_gates _ _ _ _ Hd Hb) in Hret.
    by apply quota_decision_nullable_no_estimate in Hret.
Qed.

(** An estimate that fills the limit exactly, and a NULL estimate for a
    user who is 1000000000 over the limit. *)
Lemma X3_witness :
  (check_user_gas_quota_nullable day1 (Some "0xA") (Some 50000000)
     (spent_db 4950000000) =
     Returned {| quota_check.has_quota := true;
                 quota_check.gas_used_today := Some 4950000000;
                 quota_check.remaining_quota := Some 50000000;
                 quota_check.daily_limit := Some 5000000000;
                 quota_check.reason := "OK" |} (spent_db 4950000000)
   ∧ 4950000000 + 50000000 ≤ 5000000000 ∧ 50000000 ≤ 100000000)
  ∧ (∃ r, check_user_gas_quota_nullable day1 (Some "0xA") None overspent_db
            = Returned r overspent_db
          ∧ quota_check.gas_used_today r = Some 6000000000
          ∧ quota_check.daily_limit r = Some 5000000000
          ∧ quota_check.has_quota r = true ∧ quota_check.reason r = "OK").
Proof.
  assert (check_user_gas_quota_nullable day1 (Some "0xA") (Some 50000000)
            (spent_db 4950000000) =
    Returned {| quota_check.has_quota := true;
                quota_check.gas_used_today := Some 4950000000;
                quota_check.remaining_quota := Some 50000000;
                quota_check.daily_limit := Some 5000000000;
                quota_check.reason := "OK" |} (spent_db 4950000000)) as Hrun
    by (vm_compute; reflexivity).
  assert (check_user_gas_quota_nullable day1 (Some "0xA") None overspent_db =
    Returned {| quota_check.has_quota := true;
                quota_check.gas_used_today := Some 6000000000;
                quota_check.remaining_quota := Some (-1000000000);
                quota_check.daily_limit := Some 5000000000;
                quota_check.reason := "OK" |} overspent_db) as Hnull
    by (vm_compute; reflexivity).
  split.
  - destruct (proj1 (X3_approved_within_limits day1 (Some "0xA") (spent_db 4950000000))
                _ _ _ Hrun eq_refl) as [Hday Htx].
    split; [exact Hrun|].
    split; [apply Hday; reflexivity | apply Htx; reflexivity].
  - eexists. split; [exact Hnull|].
    split; [reflexivity|]. split; [reflexivity|].
    exact (proj2 (X3_approved_within_limits day1 (Some "0xA") overspent_db)
             _ _ Hnull eq_refl eq_refl).
Defined.

(** X4.  With a configuration row in place, the evaluation answers
    ['Gas station disabled'] exactly when [enabled] is false or
    [emergency_stop] is true; a NULL in either column switches nothing
    off. *)
Theorem X4_disabled_exactly_when_switched_off s u g st c :
  head (config st) = Some c →
  result (check_user_gas_quota s u g st) = inr (refusal "Gas station disabled")
  ↔ (gas_station_config.enabled c = Some false
     ∨ gas_station_config.emergency_stop c = Some true).
Proof.
  intros Hc. rewrite <- station_disabled_iff, <- Hc. split.
  - intros Hres. destruct (station_disabled (head (config st))) eqn:Hd; [done|].
    exfalso. destruct (user_blocked s u st) eqn:Hb.
    { rewrite (check_user_blocked _ _ _ _ Hd Hb) in Hres. discriminate. }
    rewrite (check_past_gates _ _ _ _ Hd Hb) in Hres.
    destruct (quota_decision _ _ _ _ st) as [r st'|e] eqn:Hq; [|discriminate].
    apply quota_decision_returns in Hq as (_ & _ & _ & _ & Hin).
    injection Hres as ->. simpl in Hin.
    rewrite !elem_of_cons, elem_of_nil in Hin.
    destruct Hin as [?|[?|[?|[]]]]; discriminate.
  - intros Hd. by rewrite (check_station_disabled _ _ _ _ Hd).
Qed.

(** [enabled] left NULL: the station is open. *)
Lemma X4_witness :
  result (check_user_gas_quota day1 "0xA" 100000
            (fresh_db [with_switches None (Some false) (Some false)
                         (seeded_config 1764000000)]))
  ≠ inr (refusal "Gas station disabled").
Proof.
  intros Hres.
  apply (X4_disabled_exactly_when_switched_off day1 "0xA" 100000
           (fresh_db [with_switches None (Some false) (Some false)
                        (seeded_config 1764000000)])
           (with_switches None (Some false) (Some false) (seeded_config 1764000000))
           eq_refl) in Hres.
  destruct Hres as [Hres|Hres]; discriminate Hres.
Defined.

(** X5.  Without any row in [gas_station_config] nothing is limited: a
    user who is not blocked and has no limit override in today's quota row
    is approved for every estimate (that, added to the gas used today, is
    still a BIGINT), with a NULL limit and a NULL remaining quota. *)
Theorem X5_no_configuration_approves s u g st U :
  config st = [] →
  user_blocked s u st = false →
  quota_row_limit s u st = None →
  used_today s u st = Some U →
  in_bigint (U + g) = true →
  check_user_gas_quota s u g st =
    Returned {| quota_check.has_quota := true;
                quota_check.gas_used_today := Some U;
                quota_check.remaining_quota := None;
                quota_check.daily_limit := None;
                quota_check.reason := "OK" |} st.
Proof.
  intros Hc Hb Hrow HU Hfit.
  assert (head (config st) = None) as Hh by (by rewrite Hc).
  assert (station_disabled (head (config st)) = false) as Hd by (by rewrite Hh).
  rewrite (check_past_gates _ _ _ _ Hd Hb), HU.
  unfold effective_daily_limit, whitelist_mode, global_default_limit.
  rewrite Hrow, Hh. simpl. unfold_decision. by rewrite Hfit.
Qed.

Lemma X5_witness :
  check_user_gas_quota day1 "0xA" 9000000000000000000 (fresh_db []) =
    Returned {| quota_check.has_quota := true;
                quota_check.gas_used_today := Some 0;
                quota_check.remaining_quota := None;
                quota_check.daily_limit := None;
                quota_check.reason := "OK" |} (fresh_db []).
Proof.
  apply (X5_no_configuration_approves day1 "0xA" 9000000000000000000 (fresh_db []) 0);
    reflexivity.
Defined.

(** X6.  Past the kill switch and the block list, an estimate that takes
    the gas used today beyond the BIGINT range is not refused with a reason:
    the call raises [numeric_value_out_of_range]. *)
Theorem X6_estimate_out_of_range_raises s u g st U :
  station_disabled (head (config st)) = false →
  user_blocked s u st = false →
  used_today s u st = Some U →
  in_bigint (U + g) = false →
  check_user_gas_quota s u g st = Raised numeric_value_out_of_range.
Proof.
  intros Hd Hb HU Hfit.
  rewrite (check_past_gates _ _ _ _ Hd Hb), HU. unfold_decision. by rewrite Hfit.
Qed.

Lemma X6_witness :
  check_user_gas_quota day1 "0xA" 9223372036854775807 (spent_db 1) =
    Raised numeric_value_out_of_range.
Proof.
  apply (X6_estimate_out_of_range_raises day1 "0xA" 9223372036854775807
           (spent_db 1) 1); reflexivity.
Defined.

(** ** Recording *)

Lemma insert_usage_inv r st st1 :
  insert_gas_sponsorship_usage r st = Returned tt st1 →
  config st1 = config st ∧ whitelist st1 = whitelist st
  ∧ blocked_users st1 = blocked_users st ∧ markets st1 = markets st
  ∧ quotas st1 = quotas st
  ∧ usage st1 = usage st ++ [r]
  ∧ (gas_sponsorship_usage.tx_hash r ∉ logged_hashes st)
  ∧ (∀ m, gas_sponsorship_usage.market_id r = Some m → m ∈ markets st).
Proof.
  unfold insert_gas_sponsorship_usage, logged_hashes. intros H.
  apply bind_returns in H as (taken & st0 & Ht & H).
  unfold query in Ht. injection Ht as <- <-.
  case_bool_decide as Hfresh; [done|].
  apply bind_returns in H as (known & st0 & Hk & H).
  unfold query in Hk. injection Hk as <- <-.
  destruct (gas_sponsorship_usage.market_id r) as [m|] eqn:Hm.
  - case_bool_decide as Hknown; [|done].
    unfold dml in H. injection H as <-. simpl.
    repeat split; try done. by intros ? [= <-].
  - unfold dml in H. injection H as <-. simpl. repeat split; done.
Qed.

Lemma upsert_inv s u f st st1 :
  upsert_user_daily_quota s u (Some f) st = Returned tt st1 →
  config st1 = config st ∧ whitelist st1 = whitelist st
  ∧ blocked_users st1 = blocked_users st ∧ markets st1 = markets st
  ∧ usage st1 = usage st
  ∧ ∃ q, quotas st1 = <[(u, CURRENT_DATE s) := q]> (quotas st)
        ∧ user_daily_quotas.daily_limit q
          = (quotas st !! (u, CURRENT_DATE s)) ≫= user_daily_quotas.daily_limit
        ∧ user_daily_quotas.last_transaction_at q = Some (now s)
        ∧ user_daily_quotas.first_transaction_at q
          = match quotas st !! (u, CURRENT_DATE s) with
            | Some old => user_daily_quotas.first_transaction_at old
            | None => Some (now s)
            end.
Proof.
  unfold upsert_user_daily_quota.
  intros H. apply bind_returns in H as (existing & st0 & Hq & H).
  unfold query in Hq. injection Hq as <- <-.
  destruct (quotas st !! (u, CURRENT_DATE s)) as [q|].
  - apply bind_returns in H as (gas & st' & Hgas & H).
    apply (arith_returns _ _ _ _ _ _ _ to_bigint_returns) in Hgas as [-> ->].
    apply bind_returns in H as (txs & st' & Htxs & H).
    apply (arith_returns _ _ _ _ _ _ _ to_int_returns) in Htxs as [-> ->].
    unfold set_quota, dml in H. injection H as <-. simpl.
    repeat split. eexists. repeat split.
  - unfold set_quota, dml in H. injection H as <-. simpl.
    repeat split. eexists. repeat split.
Qed.

(** Everything a returned call says about the two databases. *)
Lemma record_gas_usage_inv s a st st1 :
  record_gas_usage s a st = Returned tt st1 →
  config st1 = config st ∧ whitelist st1 = whitelist st
  ∧ blocked_users st1 = blocked_users st ∧ markets st1 = markets st
  ∧ usage st1 = usage st ++ [usage_row s a]
  ∧ (p_tx_hash a ∉ logged_hashes st)
  ∧ (∀ m, p_market_id a = Some m → m ∈ markets st)
  ∧ in_bigint (p_gas_used a * p_gas_unit_price a) = true
  ∧ ∃ q, quotas st1 = <[(p_user_address a, CURRENT_DATE s) := q]> (quotas st)
        ∧ user_daily_quotas.daily_limit q
          = (quotas st !! (p_user_address a, CURRENT_DATE s))
              ≫= user_daily_quotas.daily_limit
        ∧ user_daily_quotas.last_transaction_at q = Some (now s)
        ∧ user_daily_quotas.first_transaction_at q
          = match quotas st !! (p_user_address a, CURRENT_DATE s) with
            | Some old => user_daily_quotas.first_transaction_at old
            | None => Some (now s)
            end.
Proof.
  unfold record_gas_usage. intros H.
  apply bind_returns in H as (v_total_gas_fee & st0 & Hfee & H).
  assert (in_bigint (p_gas_used a * p_gas_unit_price a) = true) as Hfit.
  { unfold to_bigint in Hfee. by destruct (in_bigint _). }
  apply to_bigint_returns in Hfee as [-> ->].
  apply bind_returns in H as ([] & st0 & Hins & H).
  apply insert_usage_inv in Hins as (Hc0 & Hw0 & Hb0 & Hm0 & Hq0 & Hu0 & Hfresh & Hfk).
  apply upsert_inv in H as (Hc & Hw & Hb & Hm & Hu & q & Hq & Hl & Hlast & Hfirst).
  simpl in *. rewrite Hq0 in Hq, Hl, Hfirst.
  split; [congruence|]. split; [congruence|]. split; [congruence|].
  split; [congruence|]. split; [by rewrite Hu, Hu0|].
  split; [done|]. split; [done|]. split; [done|].
  exists q. by repeat split.
Qed.

Lemma insert_usage_ok r st :
  gas_sponsorship_usage.tx_hash r ∉ logged_hashes st →
  (∀ m, gas_sponsorship_usage.market_id r = Some m → m ∈ markets st) →
  ∃ st1, insert_gas_sponsorship_usage r st = Returned tt st1
         ∧ quotas st1 = quotas st ∧ usage st1 = usage st ++ [r].
Proof.
  intros Hfresh Hfk. unfold insert_gas_sponsorship_usage, logged_hashes in *.
  run_plpgsql. rewrite (bool_decide_eq_false_2 _ Hfresh).
  destruct (gas_sponsorship_usage.market_id r) as [m|].
  - rewrite (bool_decide_eq_true_2 _ (Hfk m eq_refl)). unfold dml. eauto.
  - unfold dml. eauto.
Qed.

Lemma upsert_ok s u f st :
  (∀ q, quotas st !! (u, CURRENT_DATE s) = Some q → counters_have_room f q) →
  ∃ st1, upsert_user_daily_quota s u (Some f) st = Returned tt st1
         ∧ usage st1 = usage st.
Proof.
  intros Hroom. unfold upsert_user_daily_quota, set_quota, dml. run_plpgsql.
  destruct (quotas st !! (u, CURRENT_DATE s)) as [q|]; [|eauto].
  destruct (Hroom q eq_refl) as [Hgas Htxs].
  unfold int8pl, int4pl, arith, to_bigint, to_int. run_plpgsql.
  destruct (user_daily_quotas.gas_used_today q) as [x|];
    destruct (user_daily_quotas.transactions_today q) as [n|];
    rewrite ?(Hgas _ eq_refl), ?(Htxs _ eq_refl); eauto.
Qed.

(** X7.  A recording for a market that is not in [markets] is rejected
    with [foreign_key_violation] (its hash being new and its fee a BIGINT),
    and nothing of it stays in the database. *)
Theorem X7_unknown_market_is_rejected s a st m :
  p_market_id a = Some m →
  m ∉ markets st →
  p_tx_hash a ∉ logged_hashes st →
  in_bigint (p_gas_used a * p_gas_unit_price a) = true →
  record_gas_usage s a st = Raised foreign_key_violation
  ∧ db_after (record_gas_usage s a) st = st.
Proof.
  intros Hm Hunknown Hfresh Hfit.
  assert (record_gas_usage s a st = Raised foreign_key_violation) as Hraise.
  { unfold record_gas_usage, to_bigint, insert_gas_sponsorship_usage,
      logged_hashes in *.
    rewrite Hfit. run_plpgsql. simpl.
    rewrite (bool_decide_eq_false_2 _ Hfresh), Hm.
    by rewrite (bool_decide_eq_false_2 _ Hunknown). }
  split; [done|]. unfold db_after. by rewrite Hraise.
Qed.

Lemma X7_witness :
  record_gas_usage day1 (bet_on "6f1c0000-0000-4000-8000-00000000000a" "0xA" "0xh1" 700 100)
    seeded_db = Raised foreign_key_violation.
Proof.
  apply (X7_unknown_market_is_rejected day1
           (bet_on "6f1c0000-0000-4000-8000-00000000000a" "0xA" "0xh1" 700 100)
           seeded_db "6f1c0000-0000-4000-8000-00000000000a");
    [reflexivity | | | reflexivity].
  - vm_compute. set_solver.
  - vm_compute. set_solver.
Defined.

(** X8.  A recording goes through whenever its fee is a BIGINT, its hash
    is not in the log yet, its market is NULL or known, and the counters of
    the user's row for the day, if there is one, have room for it; the log
    then ends with the row of the call. *)
Theorem X8_recording_goes_through s a st :
  in_bigint (p_gas_used a * p_gas_unit_price a) = true →
  p_tx_hash a ∉ logged_hashes st →
  (∀ m, p_market_id a = Some m → m ∈ markets st) →
  (∀ q, quotas st !! (p_user_address a, CURRENT_DATE s) = Some q →
        counters_have_room (p_gas_used a * p_gas_unit_price a) q) →
  ∃ st1, record_gas_usage s a st = Returned tt st1
         ∧ usage st1 = usage st ++ [usage_row s a].
Proof.
  intros Hfit Hfresh Hfk Hroom.
  destruct (insert_usage_ok (usage_row s a) st Hfresh Hfk) as (st0 & Hins & Hq0 & Hu0).
  destruct (upsert_ok s (p_user_address a) (p_gas_used a * p_gas_unit_price a) st0)
    as (st1 & Hup & Hu1).
  { intros q Hq. apply Hroom. by rewrite <- Hq0. }
  exists st1. split; [|by rewrite Hu1, Hu0].
  unfold record_gas_usage, to_bigint. rewrite Hfit.
  unfold usage_row in Hins. run_plpgsql. by rewrite Hins.
Qed.

Lemma X8_witness :
  ∃ st1, record_gas_usage day1 (bet "0xA" "0xh9" 700 100) (spent_db 4950000000)
           = Returned tt st1
         ∧ usage st1 = [usage_row day1 (bet "0xA" "0xh9" 700 100)].
Proof.
  apply (X8_recording_goes_through day1 (bet "0xA" "0xh9" 700 100)
           (spent_db 4950000000)).
  - reflexivity.
  - vm_compute. set_solver.
  - intros m Hm. discriminate Hm.
  - intros q Hq. vm_compute in Hq. injection Hq as <-.
    split; intros x Hx; injection Hx as <-; reflexivity.
Defined.

(** A property of the database that every returned call keeps is kept by
    every returned sequence of calls. *)
Lemma record_all_keeps (P : db → Prop) :
  (∀ s a st st1, P st → record_gas_usage s a st = Returned tt st1 → P st1) →
  ∀ calls st st1, P st → record_all calls st = Returned tt st1 → P st1.
Proof.
  intros Hstep. induction calls as [|[s a] calls IH]; intros st st1 HP Hrun.
  - by injection Hrun as <-.
  - simpl in Hrun. apply bind_returns in Hrun as ([] & st0 & Hone & Hrest).
    eapply IH; [|exact Hrest]. eapply Hstep; [exact HP|exact Hone].
Qed.

(** X9.  The log never holds a transaction hash twice: if the hashes of
    [gas_sponsorship_usage] are pairwise different, they still are after
    any sequence of recordings that went through. *)
Theorem X9_logged_hashes_stay_distinct calls st st1 :
  NoDup (logged_hashes st) →
  record_all calls st = Returned tt st1 →
  NoDup (logged_hashes st1).
Proof.
  apply (record_all_keeps (λ st, NoDup (logged_hashes st))).
  clear. intros s a st st1 Hnd Hrun.
  apply record_gas_usage_inv in Hrun as (_ & _ & _ & _ & Hu & Hfresh & _).
  unfold logged_hashes in *. rewrite Hu, fmap_app. simpl.
  apply NoDup_app. split; [done|]. split; [|apply NoDup_singleton].
  intros h Hin Hh. apply list_elem_of_singleton in Hh as ->. done.
Qed.

Lemma X9_witness :
  NoDup (logged_hashes (db_after
    (record_all [(day1, bet "0xA" "0xh1" 700 100); (day1, bet "0xB" "0xh2" 5 100)])
    seeded_db)).
Proof.
  apply (X9_logged_hashes_stay_distinct
           [(day1, bet "0xA" "0xh1" 700 100); (day1, bet "0xB" "0xh2" 5 100)]
           seeded_db).
  - apply NoDup_nil_2.
  - vm_compute. reflexivity.
Defined.

(** X10.  A recording that goes through touches two things only: it
    appends its row to the log and it writes the quota row of its user for
    the day.  The configuration, the whitelist, the block list, the markets
    and every other quota row are as before; in the row it writes, the
    limit override is the one that was there (none in a new row) and
    [last_transaction_at] is [now()]. *)
Theorem X10_recording_frame s a st st1 :
  record_gas_usage s a st = Returned tt st1 →
  config st1 = config st ∧ whitelist st1 = whitelist st
  ∧ blocked_users st1 = blocked_users st ∧ markets st1 = markets st
  ∧ usage st1 = usage st ++ [usage_row s a]
  ∧ (∀ k, k ≠ (p_user_address a, CURRENT_DATE s) → quotas st1 !! k = quotas st !! k)
  ∧ ∃ q, quotas st1 !! (p_user_address a, CURRENT_DATE s) = Some q
        ∧ user_daily_quotas.daily_limit q
          = (quotas st !! (p_user_address a, CURRENT_DATE s))
              ≫= user_daily_quotas.daily_limit
        ∧ user_daily_quotas.last_transaction_at q = Some (now s).
Proof.
  intros Hrun.
  apply record_gas_usage_inv in Hrun
    as (Hc & Hw & Hb & Hm & Hu & _ & _ & _ & q & Hq & Hl & Hlast & _).
  repeat (split; [done|]). split.
  - intros k Hk. by rewrite Hq, lookup_insert_ne.
  - exists q. by rewrite Hq, lookup_insert_eq.
Qed.

Lemma X10_witness :
  let st1 := db_after (record_gas_usage day1 (bet "0xB" "0xh2" 5 100))
               (spent_db 4950000000) in
  config st1 = config (spent_db 4950000000)
  ∧ quotas st1 !! ("0xA", 20417) = Some (quota_row 4950000000 None 3).
Proof.
  intros st1.
  assert (record_gas_usage day1 (bet "0xB" "0xh2" 5 100) (spent_db 4950000000)
          = Returned tt st1) as Hrun by (vm_compute; reflexivity).
  destruct (X10_recording_frame _ _ _ _ Hrun) as (Hc & _ & _ & _ & _ & Hother & _).
  split; [exact Hc|].
  rewrite (Hother ("0xA", 20417)); [reflexivity|]. vm_compute. discriminate.
Defined.

Lemma effective_daily_limit_after_record s a st st1 s' u' :
  record_gas_usage s a st = Returned tt st1 →
  effective_daily_limit s' u' st1 = effective_daily_limit s' u' st.
Proof.
  intros Hrun.
  apply record_gas_usage_inv in Hrun
    as (Hc & Hw & _ & _ & _ & _ & _ & _ & q & Hq & Hl & _).
  unfold effective_daily_limit, quota_row_limit, whitelist_mode,
    whitelist_custom_limit, global_default_limit.
  rewrite Hc, Hw, Hq.
  destruct (decide ((p_user_address a, CURRENT_DATE s) = (u', CURRENT_DATE s')))
    as [<-|Hne].
  - rewrite lookup_insert_eq. simpl. by rewrite Hl.
  - by rewrite lookup_insert_ne.
Qed.

(** X11.  A recording changes nobody's limit and no other evaluation: after
    it the effective daily limit of every user on every day is what it was,
    and [check_user_gas_quota] gives the same result as before for every
    user and day other than the recording's own. *)
Theorem X11_recording_leaves_other_evaluations s a st st1 :
  record_gas_usage s a st = Returned tt st1 →
  (∀ s' u', effective_daily_limit s' u' st1 = effective_daily_limit s' u' st)
  ∧ ∀ s' u' g,
      (u', CURRENT_DATE s') ≠ (p_user_address a, CURRENT_DATE s) →
      result (check_user_gas_quota s' u' g st1)
      = result (check_user_gas_quota s' u' g st).
Proof.
  intros Hrun. split.
  { intros s' u'. by apply (effective_daily_limit_after_record s a). }
  intros s' u' g Hne. apply check_result_determined.
  - apply record_gas_usage_inv in Hrun as (Hc & _). by rewrite Hc.
  - apply record_gas_usage_inv in Hrun as (_ & _ & Hb & _).
    unfold user_blocked. by rewrite Hb.
  - apply record_gas_usage_inv in Hrun
      as (_ & _ & _ & _ & _ & _ & _ & _ & q & Hq & _).
    unfold used_today, gas_used_on. by rewrite Hq, lookup_insert_ne.
  - by apply (effective_daily_limit_after_record s a).
Qed.

Lemma X11_witness :
  let st1 := db_after (record_gas_usage day1 (bet "0xB" "0xh2" 5 100))
               (spent_db 4950000000) in
  result (check_user_gas_quota day1 "0xA" 50000000 st1)
  = result (check_user_gas_quota day1 "0xA" 50000000 (spent_db 4950000000)).
Proof.
  intros st1.
  assert (record_gas_usage day1 (bet "0xB" "0xh2" 5 100) (spent_db 4950000000)
          = Returned tt st1) as Hrun by (vm_compute; reflexivity).
  apply (proj2 (X11_recording_leaves_other_evaluations _ _ _ _ Hrun)).
  vm_compute. discriminate.
Defined.

(** What an approval says about the numbers, when they are not NULL. *)
Lemma approved_bounds s u g st r st' U L :
  check_user_gas_quota s u g st = Returned r st' →
  quota_check.has_quota r = true →
  used_today s u st = Some U →
  effective_daily_limit s u st = Some L →
  U + g ≤ L
  ∧ ∀ m, field (head (config st)) gas_station_config.max_gas_per_transaction = Some m →
         g ≤ m.
Proof.
  intros Hret Hok HU HL.
  destruct (approved_past_gates _ _ _ _ _ _ Hret Hok) as [Hd Hb].
  rewrite (check_past_gates _ _ _ _ Hd Hb), HU, HL in Hret.
  destruct (quota_decision_approved _ _ _ _ _ _ _ Hret Hok) as [Hday Htx].
  simpl in Hday. split.
  - by destruct (Z.ltb_spec L (U + g)).
  - intros m Hm. rewrite Hm in Htx. simpl in Htx. by destruct (Z.ltb_spec m g).
Qed.

(** X12.  Check, then record: when an estimate was approved against the
    database and the recording of the same user and day that follows charges
    no more than the estimate, the gas used today is the old amount plus the
    fee, it is still within the effective daily limit, and that limit has not
    moved. *)
Theorem X12_recording_within_estimate_stays_within_limit
    s u g st r st0 s' a st1 U L :
  check_user_gas_quota s u g st = Returned r st0 →
  quota_check.has_quota r = true →
  used_today s u st = Some U →
  effective_daily_limit s u st = Some L →
  p_user_address a = u →
  CURRENT_DATE s' = CURRENT_DATE s →
  p_gas_used a * p_gas_unit_price a ≤ g →
  record_gas_usage s' a st = Returned tt st1 →
  used_today s u st1 = Some (U + p_gas_used a * p_gas_unit_price a)
  ∧ U + p_gas_used a * p_gas_unit_price a ≤ L
  ∧ effective_daily_limit s u st1 = Some L.
Proof.
  intros Hret Hok HU HL Hu Hd Hfee Hrun.
  destruct (approved_bounds _ _ _ _ _ _ _ _ Hret Hok HU HL) as [Hroom _].
  destruct (record_gas_usage_counters _ _ _ _ (CURRENT_DATE s) u Hrun) as [Hg _].
  unfold concerns in Hg. simpl in Hg.
  rewrite !bool_decide_eq_true_2 in Hg by done. simpl in Hg.
  unfold used_today in *. rewrite HU in Hg. unfold fee in Hg. simpl in Hg.
  split; [done|]. split; [lia|].
  by rewrite (effective_daily_limit_after_record _ _ _ _ _ _ Hrun).
Qed.

Lemma X12_witness :
  let st1 := db_after (record_gas_usage day1 (bet "0xA" "0xh9" 400000 100))
               (spent_db 4950000000) in
  used_today day1 "0xA" st1 = Some (4950000000 + 400000 * 100)
  ∧ 4950000000 + 400000 * 100 ≤ 5000000000
  ∧ effective_daily_limit day1 "0xA" st1 = Some 5000000000.
Proof.
  intros st1.
  assert (check_user_gas_quota day1 "0xA" 50000000 (spent_db 4950000000) =
    Returned {| quota_check.has_quota := true;
                quota_check.gas_used_today := Some 4950000000;
                quota_check.remaining_quota := Some 50000000;
                quota_check.daily_limit := Some 5000000000;
                quota_check.reason := "OK" |} (spent_db 4950000000)) as Hcheck
    by (vm_compute; reflexivity).
  assert (record_gas_usage day1 (bet "0xA" "0xh9" 400000 100) (spent_db 4950000000)
          = Returned tt st1) as Hrun by (vm_compute; reflexivity).
  apply (X12_recording_within_estimate_stays_within_limit
           day1 "0xA" 50000000 (spent_db 4950000000) _ _ day1
           (bet "0xA" "0xh9" 400000 100) st1 4950000000 5000000000
           Hcheck eq_refl eq_refl eq_refl eq_refl eq_refl); [|exact Hrun].
  vm_compute. discriminate.
Defined.

(** X13.  Two approvals against one snapshot: when two estimates of a user
    were both approved against the same database and both transactions are
    then recorded, each charging no more than its estimate, the gas used
    today ends at most [max_gas_per_transaction] above the effective daily
    limit. *)
Theorem X13_double_approval_overshoot_is_bounded
    s u st g1 g2 r1 r2 st' st'' c1 c2 st2 U L m :
  check_user_gas_quota s u g1 st = Returned r1 st' →
  quota_check.has_quota r1 = true →
  check_user_gas_quota s u g2 st = Returned r2 st'' →
  quota_check.has_quota r2 = true →
  used_today s u st = Some U →
  effective_daily_limit s u st = Some L →
  field (head (config st)) gas_station_config.max_gas_per_transaction = Some m →
  concerns (CURRENT_DATE s) u c1 = true →
  concerns (CURRENT_DATE s) u c2 = true →
  fee c1 ≤ g1 → fee c2 ≤ g2 →
  record_all [c1; c2] st = Returned tt st2 →
  used_today s u st2 = Some (U + fee c1 + fee c2)
  ∧ U + fee c1 + fee c2 ≤ L + m.
Proof.
  intros Hret1 Hok1 Hret2 Hok2 HU HL Hm Hc1 Hc2 Hf1 Hf2 Hrun.
  destruct (approved_bounds _ _ _ _ _ _ _ _ Hret1 Hok1 HU HL) as [Hroom1 _].
  destruct (approved_bounds _ _ _ _ _ _ _ _ Hret2 Hok2 HU HL) as [_ Htx2].
  specialize (Htx2 m Hm).
  destruct c1 as [s1 a1], c2 as [s2 a2]. simpl in Hrun.
  apply bind_returns in Hrun as ([] & sta & Hone & Hrun).
  apply bind_returns in Hrun as ([] & stb & Htwo & Hrun).
  injection Hrun as <-.
  destruct (record_gas_usage_counters _ _ _ _ (CURRENT_DATE s) u Hone) as [Hga _].
  destruct (record_gas_usage_counters _ _ _ _ (CURRENT_DATE s) u Htwo) as [Hgb _].
  rewrite Hc1 in Hga. rewrite Hc2 in Hgb.
  unfold used_today in *. rewrite HU in Hga. rewrite Hga in Hgb. simpl in Hgb.
  split; [done|lia].
Qed.

Lemma X13_witness :
  let c1 := (day1, bet "0xA" "0xh8" 500000 100) in
  let c2 := (day1, bet "0xA" "0xh9" 500000 100) in
  let st2 := db_after (record_all [c1; c2]) (spent_db 4950000000) in
  used_today day1 "0xA" st2 = Some (4950000000 + fee c1 + fee c2)
  ∧ 4950000000 + fee c1 + fee c2 ≤ 5000000000 + 100000000.
Proof.
  intros c1 c2 st2.
  assert (check_user_gas_quota day1 "0xA" 50000000 (spent_db 4950000000) =
    Returned {| quota_check.has_quota := true;
                quota_check.gas_used_today := Some 4950000000;
                quota_check.remaining_quota := Some 50000000;
                quota_check.daily_limit := Some 5000000000;
                quota_check.reason := "OK" |} (spent_db 4950000000)) as Hcheck
    by (vm_compute; reflexivity).
  assert (record_all [c1; c2] (spent_db 4950000000) = Returned tt st2) as Hrun
    by (vm_compute; reflexivity).
  apply (X13_double_approval_overshoot_is_bounded
           day1 "0xA" (spent_db 4950000000) 50000000 50000000 _ _ _ _ c1 c2 st2
           4950000000 5000000000 100000000
           Hcheck eq_refl Hcheck eq_refl eq_refl eq_refl eq_refl eq_refl eq_refl);
    [| | exact Hrun]; vm_compute; discriminate.
Defined.

(** X14.  Every row of the log that a recording wrote carries the product
    of its gas and its unit price as its total, and that total is a BIGINT:
    if this holds of the log, it holds after any sequence of recordings that
    went through. *)
Theorem X14_logged_totals_are_products calls st st1 :
  Forall fee_consistent (usage st) →
  record_all calls st = Returned tt st1 →
  Forall fee_consistent (usage st1).
Proof.
  apply (record_all_keeps (λ st, Forall fee_consistent (usage st))).
  clear. intros s a st st1 Hall Hrun.
  apply record_gas_usage_inv in Hrun as (_ & _ & _ & _ & Hu & _ & _ & Hfit & _).
  rewrite Hu. apply Forall_app. split; [done|].
  apply Forall_singleton. by split.
Qed.

Lemma X14_witness :
  Forall fee_consistent (usage (db_after
    (record_all [(day1, bet "0xA" "0xh1" 700 100); (day1, bet "0xB" "0xh2" 5 100)])
    seeded_db)).
Proof.
  apply (X14_logged_totals_are_products
           [(day1, bet "0xA" "0xh1" 700 100); (day1, bet "0xB" "0xh2" 5 100)]
           seeded_db).
  - apply Forall_nil_2.
  - vm_compute. reflexivity.
Defined.

(** ** Cleaning up *)

Lemma cleanup_lookup s st u d :
  quotas (db_after (cleanup_old_quotas s) st) !! (u, d)
  = if decide (d < CURRENT_DATE s - 30) then None else quotas st !! (u, d).
Proof.
  unfold db_after, cleanup_old_quotas, dml. simpl. rewrite map_lookup_filter.
  destruct (quotas st !! (u, d)) as [q|]; simpl; [|by case_decide].
  case_guard; case_decide; simpl in *; done || lia.
Qed.

(** X15.  The clean-up does not change any evaluation made for a day of the
    last thirty: for every session whose date is not more than 30 days
    before the clean-up's, [check_user_gas_quota] gives the same result on
    the cleaned database as on the original. *)
Theorem X15_cleanup_keeps_recent_evaluations s s' u g st :
  CURRENT_DATE s - 30 ≤ CURRENT_DATE s' →
  result (check_user_gas_quota s' u g (db_after (cleanup_old_quotas s) st))
  = result (check_user_gas_quota s' u g st).
Proof.
  intros Hrecent.
  assert (quotas (db_after (cleanup_old_quotas s) st) !! (u, CURRENT_DATE s')
          = quotas st !! (u, CURRENT_DATE s')) as Hrow.
  { rewrite cleanup_lookup. case_decide; [lia|done]. }
  apply check_result_determined; try reflexivity.
  - unfold used_today, gas_used_on. by rewrite Hrow.
  - unfold effective_daily_limit, quota_row_limit. by rewrite Hrow.
Qed.

Lemma X15_witness :
  result (check_user_gas_quota day1 "0xA" 50000000
            (db_after (cleanup_old_quotas {| now := 1766000000; CURRENT_DATE := 20440 |})
               (spent_db 4950000000)))
  = result (check_user_gas_quota day1 "0xA" 50000000 (spent_db 4950000000)).
Proof.
  apply (X15_cleanup_keeps_recent_evaluations
           {| now := 1766000000; CURRENT_DATE := 20440 |} day1 "0xA" 50000000
           (spent_db 4950000000)).
  vm_compute. discriminate.
Defined.

(** X16.  What the clean-up removes and what it keeps: a quota row is gone
    exactly when its date is more than 30 days before [CURRENT_DATE], every
    other row and every other table is untouched, and a second clean-up on
    the same or a later day after the first leaves what the second alone
    would leave. *)
Theorem X16_cleanup_removes_old_rows_only s1 s2 st :
  CURRENT_DATE s1 ≤ CURRENT_DATE s2 →
  (∀ u d, quotas (db_after (cleanup_old_quotas s2) st) !! (u, d)
          = if decide (d < CURRENT_DATE s2 - 30) then None else quotas st !! (u, d))
  ∧ config (db_after (cleanup_old_quotas s2) st) = config st
  ∧ usage (db_after (cleanup_old_quotas s2) st) = usage st
  ∧ whitelist (db_after (cleanup_old_quotas s2) st) = whitelist st
  ∧ blocked_users (db_after (cleanup_old_quotas s2) st) = blocked_users st
  ∧ db_after (cleanup_old_quotas s2) (db_after (cleanup_old_quotas s1) st)
    = db_after (cleanup_old_quotas s2) st.
Proof.
  intros Hlater. split; [intros u d; apply cleanup_lookup|].
  repeat (split; [reflexivity|]).
  assert (quotas (db_after (cleanup_old_quotas s2) (db_after (cleanup_old_quotas s1) st))
          = quotas (db_after (cleanup_old_quotas s2) st)) as Hq.
  { apply map_eq. intros [u d]. rewrite !cleanup_lookup.
    repeat case_decide; done || lia. }
  unfold db_after, cleanup_old_quotas, dml in *. simpl in *. by rewrite Hq.
Qed.

Lemma X16_witness :
  let old := {| config := config seeded_db; whitelist := ∅; blocked_users := ∅;
                quotas := {[ ("0xA", 20380) := quota_row 7 None 1;
                             ("0xA", 20417) := quota_row 9 None 2 ]};
                usage := []; markets := ∅ |} in
  quotas (db_after (cleanup_old_quotas day1) old) !! ("0xA", 20380) = None
  ∧ quotas (db_after (cleanup_old_quotas day1) old) !! ("0xA", 20417)
    = Some (quota_row 9 None 2).
Proof.
  intros old.
  destruct (X16_cleanup_removes_old_rows_only day1 day1 old) as [Hrows _];
    [vm_compute; discriminate|].
  split.
  - rewrite (Hrows "0xA" 20380). reflexivity.
  - rewrite (Hrows "0xA" 20417). reflexivity.
Defined.

(** ** The contract-version cache *)

Lemma JsMap_get_set {V} (k k' : string) (v : V) m :
  JsMap.get k (JsMap.set k' v m) = if decide (k' = k) then Some v else JsMap.get k m.
Proof.
  induction m as [|[k0 v0] m IH]; simpl.
  - by repeat case_decide.
  - destruct (decide (k0 = k')) as [->|Hne]; simpl.
    + by repeat case_decide.
    + rewrite IH. repeat case_decide; congruence.
Qed.

Lemma JsMap_set_Forall {V} (P : string * V → Prop) k v m :
  Forall P m → P (k, v) → Forall P (JsMap.set k v m).
Proof.
  intros Hm Hkv. induction Hm as [|[k0 v0] m H0 Hm IH]; simpl.
  - by apply Forall_singleton.
  - case_decide; constructor; auto.
Qed.

Lemma JsMap_get_elem {V} (k : string) (v : V) m :
  JsMap.get k m = Some v → (k, v) ∈ m.
Proof.
  induction m as [|[k0 v0] m IH]; simpl; [done|].
  case_decide as Hk.
  - intros [= ->]. subst. left.
  - intros H. right. by apply IH.
Qed.

Lemma fill_cache_snoc data c :
  fill_cache (data ++ [c])
  = JsMap.set (type_key c) c
      (JsMap.set (BlockchainContract.version c) c (fill_cache data)).
Proof. unfold fill_cache. by rewrite foldl_app. Qed.

(** Looking a key up in a freshly filled cache gives the last loaded row
    that has the key as its version or as its type tag. *)
Lemma get_fill_cache k data :
  JsMap.get k (fill_cache data) = last (filter (answers_to k) data).
Proof.
  induction data as [|c data IH] using rev_ind; [done|].
  rewrite fill_cache_snoc, !JsMap_get_set, filter_app, IH.
  destruct (decide (answers_to k c)) as [Ha|Ha].
  - rewrite (filter_cons_True _ c []) by done. rewrite filter_nil, last_snoc.
    destruct Ha as [Hv|Ht]; repeat case_decide; done.
  - rewrite (filter_cons_False _ c []) by done. rewrite filter_nil, app_nil_r.
    unfold answers_to in Ha. repeat case_decide; tauto.
Qed.

Lemma fill_cache_sound env data :
  Forall (wanted env) data →
  Forall (λ kc, (kc.1 = BlockchainContract.version kc.2 ∨ kc.1 = type_key kc.2)
                ∧ wanted env kc.2)
         (fill_cache data).
Proof.
  induction data as [|c data IH] using rev_ind; intros Hall; [constructor|].
  apply Forall_app in Hall as [Hdata Hc]. rewrite Forall_singleton in Hc.
  rewrite fill_cache_snoc.
  apply JsMap_set_Forall; [apply JsMap_set_Forall; [by apply IH|]|]; simpl.
  - split; [by left | exact Hc].
  - split; [by right | exact Hc].
Qed.

(** Whether the cache is still taken as valid at the clock of [w]. *)
Lemma load_within_ttl env w σ :
  cacheTimestamp σ > 0 → Date_now w - cacheTimestamp σ < CACHE_TTL →
  loadContractVersions env w σ = (Fulfilled tt, σ).
Proof.
  intros Hpos Hfresh. unfold loadContractVersions.
  by rewrite !bool_decide_eq_true_2.
Qed.

Lemma load_expired env w σ :
  ¬ (cacheTimestamp σ > 0 ∧ Date_now w - cacheTimestamp σ < CACHE_TTL) →
  loadContractVersions env w σ =
    match select_latest_contracts env w with
    | inl message =>
        (Rejected ("Failed to load contract versions: " +:+ message), σ)
    | inr data =>
        (Fulfilled tt,
         {| contractCache := fill_cache data; cacheTimestamp := Date_now w |})
    end.
Proof.
  intros Hexp. unfold loadContractVersions.
  destruct (bool_decide (cacheTimestamp σ > 0)
            && bool_decide (Date_now w - cacheTimestamp σ < CACHE_TTL)) eqn:Hb;
    [|done].
  apply andb_true_iff in Hb as [H1 H2].
  apply bool_decide_eq_true in H1, H2. tauto.
Qed.

Lemma load_keeps_sound env w σ :
  cache_sound env σ → cache_sound env (state_after (loadContractVersions env w) σ).
Proof.
  intros Hs. unfold state_after, loadContractVersions.
  destruct (_ && _); [done|].
  unfold select_latest_contracts. destruct (supabase_error w); [done|]. simpl.
  apply fill_cache_sound, Forall_forall. intros c Hc.
  by apply list_elem_of_filter in Hc as [? _].
Qed.

(** A getter leaves the module's variables the way its load left them. *)
Lemma state_after_load_then {A} env w (k : task A) σ :
  (∀ σ', (k σ').2 = σ') →
  state_after (loadContractVersions env w;; k) σ
  = state_after (loadContractVersions env w) σ.
Proof.
  intros Hk. unfold state_after, mbind, task_bind.
  destruct (loadContractVersions env w σ) as [[[]|e] σ']; simpl; [apply Hk|done].
Qed.

Lemma state_after_get_contract keys pattern name env w σ :
  state_after (get_contract keys pattern name env w) σ
  = state_after (loadContractVersions env w) σ.
Proof.
  unfold get_contract. apply state_after_load_then. intros σ'.
  unfold mbind, task_bind, inspect. simpl.
  by destruct (pick_contract keys pattern (contractCache σ')).
Qed.

Lemma state_after_get_function_path keys pattern name env w fn o σ :
  state_after (get_function_path (get_contract keys pattern name) env w fn o) σ
  = state_after (loadContractVersions env w) σ.
Proof.
  rewrite <- (state_after_get_contract keys pattern name).
  unfold state_after, get_function_path, mbind at 1, task_bind at 1.
  by destruct (get_contract keys pattern name env w σ) as [[c|e] σ'].
Qed.

(** X17.  The cache stays sound: if every cached entry sits under its
    version or its type tag and is a latest, active contract of the
    configured network, then this still holds after [loadContractVersions],
    [refreshContractVersions], [getContractByVersion] and
    [getMarketFunctionPath], whatever the clock, the table and the database
    do. *)
Theorem X17_cache_stays_sound env w σ v sys fn o :
  cache_sound env σ →
  cache_sound env (state_after (loadContractVersions env w) σ)
  ∧ cache_sound env (state_after (refreshContractVersions env w) σ)
  ∧ cache_sound env (state_after (getContractByVersion env w v) σ)
  ∧ cache_sound env (state_after (getMarketFunctionPath env w sys fn o) σ).
Proof.
  intros Hs. split; [by apply load_keeps_sound|]. split; [|split].
  - unfold refreshContractVersions, state_after, mbind, task_bind, reset_cache.
    apply (load_keeps_sound env w {| contractCache := []; cacheTimestamp := 0 |}).
    constructor.
  - unfold getContractByVersion. rewrite state_after_load_then by done.
    by apply load_keeps_sound.
  - unfold getMarketFunctionPath, getV3BinaryFunctionPath, getV3MultiFunctionPath,
      getV4BinaryFunctionPath, getV4MOIFunctionPath, getV3BinaryContract,
      getV3MultiContract, getV4BinaryContract, getV4MultiContract.
    repeat case_decide; rewrite ?state_after_get_function_path;
      try (by apply load_keeps_sound). done.
Qed.

Lemma X17_witness :
  cache_sound None
    (state_after (getMarketFunctionPath None (seeded_world 1764028800000)
                    (Some "v3-binary") "buy_with_apt" None) service_start).
Proof.
  refine (proj2 (proj2 (proj2
    (X17_cache_stays_sound None (seeded_world 1764028800000) service_start
       "v3-binary-safe" (Some "v3-binary") "buy_with_apt" None _)))).
  constructor.
Defined.

(** X18.  Within the time to live nothing is read from outside: when the
    cache was stamped less than 60000 ms before the clock of the call,
    [getContractByVersion] answers from the cache and leaves the module's
    variables as they are, and [getMarketFunctionPath] gives the same
    whatever the table holds and whether or not the database answers. *)
Theorem X18_answers_from_cache_within_ttl env w w' σ v sys fn o :
  cacheTimestamp σ > 0 →
  Date_now w - cacheTimestamp σ < CACHE_TTL →
  Date_now w' = Date_now w →
  getContractByVersion env w v σ = (Fulfilled (JsMap.get v (contractCache σ)), σ)
  ∧ getMarketFunctionPath env w sys fn o σ = getMarketFunctionPath env w' sys fn o σ.
Proof.
  intros Hpos Hfresh Hclock. split.
  - unfold getContractByVersion, mbind, task_bind.
    by rewrite load_within_ttl.
  - assert (Date_now w' - cacheTimestamp σ < CACHE_TTL) as Hfresh' by lia.
    unfold getMarketFunctionPath, getV3BinaryFunctionPath, getV3MultiFunctionPath,
      getV4BinaryFunctionPath, getV4MOIFunctionPath, getV3BinaryContract,
      getV3MultiContract, getV4BinaryContract, getV4MultiContract,
      get_function_path, get_contract, mbind, task_bind.
    repeat case_decide; rewrite ?(load_within_ttl env w), ?(load_within_ttl env w');
      done.
Qed.

(** Loaded at noon, asked again half a minute later while the database is
    down. *)
Lemma X18_witness :
  let σ := state_after (loadContractVersions None (seeded_world 1764028800000))
             service_start in
  getMarketFunctionPath None (outage 1764028830000) (Some "v3-binary")
    "buy_with_apt" None σ
  = (Fulfilled "0xYOUR_V3_BINARY_ADDRESS::v3AMMbinary::buy_with_apt", σ).
Proof.
  intros σ.
  rewrite (proj2 (X18_answers_from_cache_within_ttl None (outage 1764028830000)
                    (seeded_world 1764028830000) σ "" (Some "v3-binary")
                    "buy_with_apt" None eq_refl eq_refl eq_refl)).
  vm_compute. reflexivity.
Defined.

(** X19.  Once the cache has run out (or was never filled) and the database
    answers, a lookup reloads and returns the last of the latest, active
    rows of the configured network that has the asked key as its version or
    as ["type:"] followed by its contract type; the cache is stamped with
    the clock of the call. *)
Theorem X19_lookup_after_reload env w σ v :
  ¬ (cacheTimestamp σ > 0 ∧ Date_now w - cacheTimestamp σ < CACHE_TTL) →
  supabase_error w = None →
  getContractByVersion env w v σ =
    (Fulfilled (last (filter (answers_to v)
                        (filter (wanted env) (blockchain_contracts w)))),
     {| contractCache := fill_cache (filter (wanted env) (blockchain_contracts w));
        cacheTimestamp := Date_now w |}).
Proof.
  intros Hexp Hup. unfold getContractByVersion, mbind, task_bind.
  rewrite (load_expired _ _ _ Hexp). unfold select_latest_contracts. rewrite Hup.
  unfold inspect. simpl. by rewrite get_fill_cache.
Qed.

(** The type tag answers with the last contract of that type. *)
Lemma X19_witness :
  (getContractByVersion None (seeded_world 1764028800000) "type:amm" service_start).1
  = Fulfilled (Some (seed_contract "v3-multi-safe" "amm" "v3AMMmulti"
                       "0xYOUR_V3_MULTI_ADDRESS")).
Proof.
  rewrite (X19_lookup_after_reload None (seeded_world 1764028800000) service_start
             "type:amm"); [reflexivity | | reflexivity].
  vm_compute. intros [H _]. discriminate H.
Defined.

(** X20.  While the database does not answer, a lookup on an expired cache
    rejects with the error of the load and changes nothing, and
    [refreshContractVersions] rejects the same way but has already emptied
    the cache and zeroed its stamp, also when the cache was still valid. *)
Theorem X20_outage_rejects_and_refresh_drops_the_cache env w σ v message :
  supabase_error w = Some message →
  refreshContractVersions env w σ
    = (Rejected ("Failed to load contract versions: " +:+ message), service_start)
  ∧ (¬ (cacheTimestamp σ > 0 ∧ Date_now w - cacheTimestamp σ < CACHE_TTL) →
     getContractByVersion env w v σ
       = (Rejected ("Failed to load contract versions: " +:+ message), σ)).
Proof.
  intros Hdown. split.
  - unfold refreshContractVersions, mbind, task_bind, reset_cache.
    rewrite load_expired by (simpl; lia).
    unfold select_latest_contracts. by rewrite Hdown.
  - intros Hexp. unfold getContractByVersion, mbind, task_bind.
    rewrite (load_expired _ _ _ Hexp). unfold select_latest_contracts.
    by rewrite Hdown.
Qed.

(** A cache loaded half a minute ago, refreshed during an outage. *)
Lemma X20_witness :
  let σ := state_after (loadContractVersions None (seeded_world 1764028800000))
             service_start in
  refreshContractVersions None (outage 1764028830000) σ
  = (Rejected "Failed to load contract versions: connection refused", service_start).
Proof.
  intros σ.
  exact (proj1 (X20_outage_rejects_and_refresh_drops_the_cache None
                  (outage 1764028830000) σ "" "connection refused" eq_refl)).
Defined.

(** X21.  A market system other than ['v3-binary'], ['v3-multi'],
    ['v4-binary'] and ['v4-multi'] (NULL included) is rejected with
    ['Unknown market system: ...'] before anything is loaded: the module's
    variables are untouched and neither the table nor the clock is looked
    at. *)
Theorem X21_unknown_market_system_is_rejected env w sys fn o σ :
  sys ∉ [Some "v3-binary"; Some "v3-multi"; Some "v4-binary"; Some "v4-multi"] →
  getMarketFunctionPath env w sys fn o σ
  = (Rejected ("Unknown market system: " +:+ default "null" sys), σ).
Proof.
  intros Hsys. unfold getMarketFunctionPath.
  rewrite !elem_of_cons, elem_of_nil in Hsys.
  repeat case_decide; first [tauto | done].
Qed.

(** The system the schema names for sponsored markets. *)
Lemma X21_witness :
  getMarketFunctionPath None (seeded_world 1764028800000) (Some "sponsored-v2")
    "buy_with_apt" None service_start
  = (Rejected "Unknown market system: sponsored-v2", service_start).
Proof.
  apply (X21_unknown_market_system_is_rejected None (seeded_world 1764028800000)
           (Some "sponsored-v2") "buy_with_apt" None service_start).
  rewrite !elem_of_cons, elem_of_nil. intros [H|[H|[H|[H|[]]]]]; discriminate H.
Defined.

Lemma get_contract_fulfilled keys pattern name env w σ c σ' :
  get_contract keys pattern name env w σ = (Fulfilled c, σ') →
  σ' = state_after (loadContractVersions env w) σ
  ∧ pick_contract keys pattern (contractCache σ') = Some c.
Proof.
  unfold get_contract, state_after, mbind, task_bind, inspect.
  destruct (loadContractVersions env w σ) as [[[]|e] σ0]; [|done]. simpl.
  destruct (pick_contract keys pattern (contractCache σ0)) as [c0|] eqn:Hp; [|done].
  intros [= <- <-]. done.
Qed.

Lemma prefix_append (s1 s2 : string) : String.prefix s1 (s1 +:+ s2) = true.
Proof.
  induction s1 as [|a s1 IH]; simpl; [by destruct s2|].
  by destruct (Ascii.ascii_dec a a).
Qed.

(** What the getters pick: an entry of the cache whose version has the
    pattern in it, as long as the keys they try first have it too and are no
    type tags. *)
Lemma pick_contract_sound keys pattern cache c :
  Forall (λ kc, kc.1 = BlockchainContract.version kc.2 ∨ kc.1 = type_key kc.2) cache →
  Forall (λ k, includes pattern k = true ∧ String.prefix "type:" k = false) keys →
  pick_contract keys pattern cache = Some c →
  c ∈ JsMap.values cache ∧ includes pattern (BlockchainContract.version c) = true.
Proof.
  intros Hcache Hkeys. unfold pick_contract.
  induction Hkeys as [|k keys [Hinc Hnot] Hkeys IH]; simpl.
  - intros Hfind. apply find_some in Hfind as [Hin Hc].
    apply andb_true_iff in Hc as [Hc _]. split; [by apply list_elem_of_In|done].
  - destruct (JsMap.get k cache) as [c0|] eqn:Hget; simpl; [|exact IH].
    intros [= ->]. apply JsMap_get_elem in Hget.
    split; [unfold JsMap.values; apply list_elem_of_fmap; by exists (k, c)|].
    rewrite Forall_forall in Hcache. destruct (Hcache _ Hget) as [Hv|Ht]; simpl in *.
    + by rewrite <- Hv.
    + exfalso. rewrite Ht in Hnot. unfold type_key in Hnot.
      by rewrite prefix_append in Hnot.
Qed.

Lemma get_function_path_fulfilled keys pattern name env w fn o σ path σ' :
  cache_sound env σ →
  Forall (λ k, includes pattern k = true ∧ String.prefix "type:" k = false) keys →
  get_function_path (get_contract keys pattern name) env w fn o σ = (Fulfilled path, σ') →
  ∃ c, c ∈ JsMap.values (contractCache σ')
       ∧ wanted env c
       ∧ includes pattern (BlockchainContract.version c) = true
       ∧ path = function_path c fn o.
Proof.
  intros Hsound Hkeys. unfold get_function_path, mbind at 1, task_bind at 1.
  destruct (get_contract keys pattern name env w σ) as [[c|e] σ0] eqn:Hget; [|done].
  intros [= <- <-]. apply get_contract_fulfilled in Hget as [-> Hpick].
  pose proof (load_keeps_sound env w σ Hsound) as Hs'.
  unfold cache_sound in Hs'.
  destruct (pick_contract_sound keys pattern
              (contractCache (state_after (loadContractVersions env w) σ)) c)
    as [Hin Hinc]; [|done|done|].
  { eapply Forall_impl; [exact Hs'|]. by intros kc [? _]. }
  exists c. split; [done|]. split; [|done].
  unfold JsMap.values in Hin. apply list_elem_of_fmap in Hin as ([k c'] & -> & Hin).
  rewrite Forall_forall in Hs'. by destruct (Hs' _ Hin) as [_ ?].
Qed.

(** X22.  When [getMarketFunctionPath] fulfils, from a sound cache, its
    path is [address::module::function] of a cached contract that is a
    latest, active contract of the configured network and whose version has
    the market system in it; the module is the override when one is given
    and not empty, otherwise what prints for the contract's first module
    name. *)
Theorem X22_function_path_of_a_matching_contract env w sys fn o σ path σ' :
  cache_sound env σ →
  getMarketFunctionPath env w (Some sys) fn o σ = (Fulfilled path, σ') →
  ∃ c, c ∈ JsMap.values (contractCache σ')
       ∧ wanted env c
       ∧ includes sys (BlockchainContract.version c) = true
       ∧ path = BlockchainContract.account_address c +:+ "::"
                +:+ match o with
                    | None | Some EmptyString =>
                        printed (BlockchainContract.module_names c !! 0%nat)
                    | Some name => name
                    end
                +:+ "::" +:+ fn.
Proof.
  intros Hsound. unfold getMarketFunctionPath.
  unfold getV3BinaryFunctionPath, getV3MultiFunctionPath, getV4BinaryFunctionPath,
    getV4MOIFunctionPath, getV3BinaryContract, getV3MultiContract,
    getV4BinaryContract, getV4MultiContract.
  repeat case_decide; simplify_eq; try done;
    intros Hrun;
    apply (get_function_path_fulfilled _ _ _ _ _ _ _ _ _ _ Hsound) in Hrun;
    try done;
    repeat (constructor; [by vm_compute|]); constructor.
Qed.

Lemma X22_witness :
  ∃ c, c ∈ JsMap.values (contractCache
             (state_after (loadContractVersions None (seeded_world 1764028800000))
                service_start))
       ∧ wanted None c
       ∧ includes "v3-multi" (BlockchainContract.version c) = true
       ∧ "0xYOUR_V3_MULTI_ADDRESS::custom_module::buy_with_apt"
         = BlockchainContract.account_address c +:+ "::" +:+ "custom_module"
           +:+ "::" +:+ "buy_with_apt".
Proof.
  apply (X22_function_path_of_a_matching_contract None (seeded_world 1764028800000)
           "v3-multi" "buy_with_apt" (Some "custom_module") service_start
           "0xYOUR_V3_MULTI_ADDRESS::custom_module::buy_with_apt").
  - constructor.
  - vm_compute. reflexivity.
Defined.

(** ** The decision, once more *)

(** X23.  The whole decision when the gas used today [U], the effective
    daily limit [L] and [max_gas_per_transaction] [m] are set, past the kill
    switch and the block list.  For an estimate [g] that is a value: the
    call raises [numeric_value_out_of_range] when [U + g] or [L - U] is no
    BIGINT; otherwise it returns a row, which approves exactly when the
    estimate fits under both limits, and gives the daily reason whenever
    the estimate does not fit under the daily limit, also when it fits under
    neither.  For a NULL estimate: an approval (or the same error, when
    [L - U] is no BIGINT). *)
Theorem X23_decision_when_limits_are_set s pu st U L m :
  station_disabled (head (config st)) = false →
  user_blocked_for s pu st = false →
  used_today_for s pu st = Some U →
  effective_daily_limit_for s pu st = Some L →
  field (head (config st)) gas_station_config.max_gas_per_transaction = Some m →
  (∀ g,
     check_user_gas_quota_nullable s pu (Some g) st =
       if in_bigint (U + g) && in_bigint (L - U) then
         Returned {| quota_check.has_quota := bool_decide (U + g ≤ L ∧ g ≤ m);
                     quota_check.gas_used_today := Some U;
                     quota_check.remaining_quota := Some (L - U);
                     quota_check.daily_limit := Some L;
                     quota_check.reason :=
                       if decide (L < U + g) then "Daily quota exceeded"
                       else if decide (m < g)
                            then "Gas per transaction limit exceeded"
                            else "OK" |} st
       else Raised numeric_value_out_of_range)
  ∧ check_user_gas_quota_nullable s pu None st =
      if in_bigint (L - U) then
        Returned {| quota_check.has_quota := true;
                    quota_check.gas_used_today := Some U;
                    quota_check.remaining_quota := Some (L - U);
                    quota_check.daily_limit := Some L;
                    quota_check.reason := "OK" |} st
      else Raised numeric_value_out_of_range.
Proof.
  intros Hd Hb HU HL Hm. split.
  - intros g. rewrite (check_nullable_past_gates _ _ _ _ Hd Hb), HU, HL.
    change (quota_decision_nullable (head (config st)) (Some g) (Some U) (Some L))
      with (quota_decision (head (config st)) g (Some U) (Some L)).
    destruct (in_bigint (U + g)) eqn:Hsum; simpl.
    + destruct (in_bigint (L - U)) eqn:Hrem.
      * destruct (decide (L < U + g)) as [Hover|Hroom].
        { rewrite bool_decide_eq_false_2 by lia. by apply quota_decision_exceeded. }
        destruct (decide (m < g)) as [Hbig|Hsmall].
        { rewrite bool_decide_eq_false_2 by lia.
          apply quota_decision_per_tx with m; try done. lia. }
        rewrite bool_decide_eq_true_2 by lia.
        apply quota_decision_ok; try done; [lia|].
        rewrite Hm. simpl. by destruct (Z.ltb_spec m g); [lia|].
      * unfold_decision. rewrite Hsum, Hm. simpl.
        destruct (L <? U + g); simpl; [by rewrite Hrem|].
        destruct (m <? g); simpl; by rewrite Hrem.
    + unfold_decision. by rewrite Hsum.
  - rewrite (check_nullable_past_gates _ _ _ _ Hd Hb), HU, HL.
    unfold quota_decision_nullable, report, int8pl, int8mi, arith, to_bigint.
    run_plpgsql. simpl. by destruct (in_bigint (L - U)).
Qed.

(** Over both limits at once: the daily reason.  One unit used and the
    largest BIGINT as the estimate: an error, not a reason. *)
Lemma X23_witness :
  check_user_gas_quota_nullable day1 (Some "0xA") (Some 200000000)
    (spent_db 4950000000) =
    Returned {| quota_check.has_quota := false;
                quota_check.gas_used_today := Some 4950000000;
                quota_check.remaining_quota := Some 50000000;
                quota_check.daily_limit := Some 5000000000;
                quota_check.reason := "Daily quota exceeded" |} (spent_db 4950000000)
  ∧ check_user_gas_quota_nullable day1 (Some "0xA") (Some 9223372036854775807)
      (spent_db 1) = Raised numeric_value_out_of_range.
Proof.
  split.
  - exact (proj1 (X23_decision_when_limits_are_set day1 (Some "0xA")
                    (spent_db 4950000000) 4950000000 5000000000 100000000
                    eq_refl eq_refl eq_refl eq_refl eq_refl) 200000000).
  - exact (proj1 (X23_decision_when_limits_are_set day1 (Some "0xA")
                    (spent_db 1) 1 5000000000 100000000
                    eq_refl eq_refl eq_refl eq_refl eq_refl) 9223372036854775807).
Defined.

(** X24.  A quota row whose [gas_used_today] is NULL takes the daily limit
    out of force: past the kill switch and the block list the evaluation
    never says ['Daily quota exceeded'], it approves exactly when the
    estimate is not above [max_gas_per_transaction], with a NULL remaining
    quota; and a recording for that user and day leaves the counter NULL. *)
Theorem X24_null_counter_escapes_the_daily_limit s u g st :
  station_disabled (head (config st)) = false →
  user_blocked s u st = false →
  used_today s u st = None →
  check_user_gas_quota s u g st =
    Returned {| quota_check.has_quota :=
                  negb (Sql.holds (Sql.gt3 (Some g)
                    (field (head (config st)) gas_station_config.max_gas_per_transaction)));
                quota_check.gas_used_today := None;
                quota_check.remaining_quota := None;
                quota_check.daily_limit := effective_daily_limit s u st;
                quota_check.reason :=
                  if Sql.holds (Sql.gt3 (Some g)
                    (field (head (config st)) gas_station_config.max_gas_per_transaction))
                  then "Gas per transaction limit exceeded" else "OK" |} st
  ∧ ∀ s' a st1,
      record_gas_usage s' a st = Returned tt st1 →
      p_user_address a = u → CURRENT_DATE s' = CURRENT_DATE s →
      used_today s u st1 = None.
Proof.
  intros Hd Hb HU. split.
  - rewrite (check_past_gates _ _ _ _ Hd Hb), HU. unfold_decision.
    destruct (effective_daily_limit s u st);
      by destruct (Sql.holds (Sql.gt3 (Some g) _)).
  - intros s' a st1 Hrun Hu Hday.
    destruct (record_gas_usage_counters _ _ _ _ (CURRENT_DATE s) u Hrun) as [Hg _].
    unfold concerns in Hg. simpl in Hg.
    rewrite !bool_decide_eq_true_2 in Hg by done. simpl in Hg.
    unfold used_today in *. by rewrite HU in Hg.
Qed.

Lemma X24_witness :
  check_user_gas_quota day1 "0xA" 100000000 uncounted_db =
    Returned {| quota_check.has_quota := true;
                quota_check.gas_used_today := None;
                quota_check.remaining_quota := None;
                quota_check.daily_limit := Some 5000000000;
                quota_check.reason := "OK" |} uncounted_db.
Proof.
  exact (proj1 (X24_null_counter_escapes_the_daily_limit day1 "0xA" 100000000
                  uncounted_db eq_refl eq_refl eq_refl)).
Defined.

(** ** Refreshing *)

(** X25.  [refreshContractVersions] reloads whatever the stamp says: when
    the database answers, the cache after it is the one filled from the
    latest, active rows of the configured network as the table holds them
    now, stamped with the clock of the call, from every earlier state. *)
Theorem X25_refresh_always_reloads env w σ :
  supabase_error w = None →
  refreshContractVersions env w σ =
    (Fulfilled tt,
     {| contractCache := fill_cache (filter (wanted env) (blockchain_contracts w));
        cacheTimestamp := Date_now w |}).
Proof.
  intros Hup. unfold refreshContractVersions, mbind, task_bind, reset_cache.
  rewrite load_expired by (simpl; lia).
  unfold select_latest_contracts. by rewrite Hup.
Qed.

(** A table emptied since the load: the load within the time to live still
    serves the old rows, the refresh does not. *)
Lemma X25_witness :
  let σ := state_after (loadContractVersions None (seeded_world 1764028800000))
             service_start in
  let emptied := {| Date_now := 1764028830000; blockchain_contracts := [];
                    supabase_error := None |} in
  state_after (loadContractVersions None emptied) σ = σ
  ∧ refreshContractVersions None emptied σ
    = (Fulfilled tt, {| contractCache := []; cacheTimestamp := 1764028830000 |}).
Proof.
  intros σ emptied. split; [vm_compute; reflexivity|].
  exact (X25_refresh_always_reloads None emptied σ eq_refl).
Defined.

(** ** The handler and the quota check *)


